(** * GeoJSON comparison tool: validate, analyze, compare

    A shallow embedding of the three functions of [streamlit_app.py]
    ([validate_geojson], [analyze_geojson], [compare_geojson]) over a model
    of the values [json.loads] produces, with Python's exceptions made
    explicit, followed by the properties of the three functions. *)

From Stdlib Require Import ZArith List Bool Permutation.
From Stdlib Require Import Floats.SpecFloat.
From stdpp Require Import gmap strings list fin_maps.

Open Scope string_scope.
Open Scope list_scope.

Set Warnings "-clear-no-such-hyp".

(** ** Parsed JSON values *)

(** What [json.loads] returns: [None], [bool], [int], [float], [str],
    [list] and [dict].  A [str] is a sequence of characters, one [ascii]
    each.  An object is kept as the sequence of its
    [(key, value)] pairs in document order; the operations below read it
    the way the [dict] built from these pairs behaves (a repeated key keeps
    its first position and its last value). *)
#[warnings="-register-all"]
Inductive json : Type :=
| JNull
| JBool (b : bool)
| JInt (z : Z)
| JFloat (f : spec_float)
| JStr (s : string)
| JArr (items : list json)
| JObj (pairs : list (string * json)).

(** ** Dictionaries built from pairs *)

Section Dict.
Context {A : Type}.

(** [d.get(k)]: the value of the last pair with key [k]. *)
Fixpoint dict_get (k : string) (m : list (string * A)) : option A :=
  match m with
  | [] => None
  | (k', v) :: rest =>
      match dict_get k rest with
      | Some x => Some x
      | None => if String.eqb k k' then Some v else None
      end
  end.

(** [k in d] *)
Definition dict_mem (k : string) (m : list (string * A)) : bool :=
  match dict_get k m with Some _ => true | None => false end.

(** [d.keys()]: the distinct keys, each at its first position. *)
Fixpoint dict_keys (m : list (string * A)) : list string :=
  match m with
  | [] => []
  | (k, _) :: rest =>
      k :: List.filter (fun k' => negb (String.eqb k k')) (dict_keys rest)
  end.

(** [len(d)] *)
Definition dict_len (m : list (string * A)) : nat := length (dict_keys m).
End Dict.

(** ** Hashing and equality of Python values *)

(** The key under which a hashable value is found in a [dict]: [True], [1]
    and [1.0] are one key, so a finite number is kept as a dyadic rational
    in lowest terms (odd mantissa).  Every [NaN] of a parsed document is
    the decoder's one constant and is found again by identity. *)
Inductive pykey : Type :=
| KNone
| KStr (s : string)
| KZero
| KNum (neg : bool) (m : positive) (e : Z)
| KInf (neg : bool)
| KNan.

#[global] Instance pykey_eq_dec : EqDecision pykey.
Proof. solve_decision. Defined.

Fixpoint strip (m : positive) (e : Z) : positive * Z :=
  match m with
  | xO m' => strip m' (e + 1)
  | _ => (m, e)
  end.

Definition key_of_Z (z : Z) : pykey :=
  match z with
  | Z0 => KZero
  | Zpos p => let '(m, e) := strip p 0 in KNum false m e
  | Zneg p => let '(m, e) := strip p 0 in KNum true m e
  end.

Definition key_of_float (f : spec_float) : pykey :=
  match f with
  | S754_zero _ => KZero
  | S754_infinity s => KInf s
  | S754_nan => KNan
  | S754_finite s m e => let '(m', e') := strip m e in KNum s m' e'
  end.

(** [None] for the unhashable [list] and [dict]. *)
Definition hash_key (x : json) : option pykey :=
  match x with
  | JNull => Some KNone
  | JBool b => Some (key_of_Z (if b then 1 else 0))
  | JInt z => Some (key_of_Z z)
  | JFloat f => Some (key_of_float f)
  | JStr s => Some (KStr s)
  | JArr _ | JObj _ => None
  end.

(** Equality as containers test it ([x is y or x == y]): lists elementwise,
    dicts as mappings, scalars by their key. *)
Fixpoint py_eq (a b : json) {struct a} : bool :=
  match a, b with
  | JArr l, JArr l' =>
      (fix go (l l' : list json) : bool :=
         match l, l' with
         | [], [] => true
         | x :: xs, y :: ys => py_eq x y && go xs ys
         | _, _ => false
         end) l l'
  | JObj m, JObj m' =>
      Nat.eqb (dict_len m) (dict_len m') &&
      (fix go (m : list (string * json)) : bool :=
         match m with
         | [] => true
         | (k, v) :: rest =>
             (if dict_mem k rest then true
              else match dict_get k m' with
                   | Some v' => py_eq v v'
                   | None => false
                   end) && go rest
         end) m
  | JArr _, _ | JObj _, _ | _, JArr _ | _, JObj _ => false
  | _, _ => bool_decide (hash_key a = hash_key b)
  end.

(** The operator [a == b]: a [NaN] differs from itself. *)
Definition py_eqeq (a b : json) : bool :=
  match a, b with
  | JFloat S754_nan, JFloat S754_nan => false
  | _, _ => py_eq a b
  end.

(** The operator [a != b]. *)
Definition py_ne (a b : json) : bool := negb (py_eqeq a b).

(** [bool(x)] *)
Definition py_truthy (x : json) : bool :=
  match x with
  | JNull => false
  | JBool b => b
  | JInt z => negb (Z.eqb z 0)
  | JFloat (S754_zero _) => false
  | JFloat _ => true
  | JStr s => negb (String.eqb s "")
  | JArr l => match l with [] => false | _ => true end
  | JObj m => match m with [] => false | _ => true end
  end.

(** [needle in hay] on strings *)
Fixpoint str_contains (needle hay : string) : bool :=
  String.prefix needle hay ||
  match hay with
  | EmptyString => false
  | String _ rest => str_contains needle rest
  end.

(** The one-character strings a [for] loop over a [str] yields. *)
Fixpoint str_chars (s : string) : list string :=
  match s with
  | EmptyString => []
  | String c rest => String c EmptyString :: str_chars rest
  end.

(** ** Schema violations and exceptions *)

Inductive jtype : Type := TObject | TArray | TString.

(** A [jsonschema.ValidationError]: where it was found, and its cause. *)
Inductive violation : Type :=
| NotOfType (path : list string) (inst : json) (t : jtype)
| RequiredMissing (path : list string) (k : string)
| NotInEnum (path : list string) (inst : json) (allowed : list string).

Inductive exn : Type :=
| AttributeError
| TypeError
| KeyError
| ValidationError (v : violation).

Inductive res (A : Type) : Type :=
| Ret (a : A)
| Raise (e : exn).
Arguments Ret {A} a.
Arguments Raise {A} e.

Definition bind {A B : Type} (c : res A) (k : A -> res B) : res B :=
  match c with
  | Ret a => k a
  | Raise e => Raise e
  end.

Notation "'let*' x ':=' c 'in' k" := (bind c (fun x => k))
  (at level 10, x pattern, c at level 100, k at level 200).

(** A [for] loop whose body may raise. *)
Fixpoint for_each {A S : Type} (body : A -> S -> res S) (l : list A) (s : S) : res S :=
  match l with
  | [] => Ret s
  | x :: rest => let* s' := body x s in for_each body rest s'
  end.

(** ** Python operations on parsed values *)

(** [x.get(k, default)]: only a [dict] has [get]. *)
Definition py_get (x : json) (k : string) (default : json) : res json :=
  match x with
  | JObj m => Ret (match dict_get k m with Some v => v | None => default end)
  | _ => Raise AttributeError
  end.

(** [len(x)] *)
Definition py_len (x : json) : res Z :=
  match x with
  | JArr l => Ret (Z.of_nat (length l))
  | JObj m => Ret (Z.of_nat (dict_len m))
  | JStr s => Ret (Z.of_nat (String.length s))
  | _ => Raise TypeError
  end.

(** The values [for v in x] runs through. *)
Definition py_iter (x : json) : res (list json) :=
  match x with
  | JArr l => Ret l
  | JObj m => Ret (map JStr (dict_keys m))
  | JStr s => Ret (map JStr (str_chars s))
  | _ => Raise TypeError
  end.

(** [k in x] for a string [k] *)
Definition py_contains (k : string) (x : json) : res bool :=
  match x with
  | JObj m => Ret (dict_mem k m)
  | JArr l => Ret (existsb (fun y => py_eq y (JStr k)) l)
  | JStr s => Ret (str_contains k s)
  | _ => Raise TypeError
  end.

(** [x[k]] for a string [k] *)
Definition py_getitem (x : json) (k : string) : res json :=
  match x with
  | JObj m => match dict_get k m with Some v => Ret v | None => Raise KeyError end
  | _ => Raise TypeError
  end.

(** [x.keys()] *)
Definition py_keys (x : json) : res (list string) :=
  match x with
  | JObj m => Ret (dict_keys m)
  | _ => Raise AttributeError
  end.

(** ** Reports *)

(** The values stored in the [analysis] and [differences] dicts.  A key
    list comes from [list(a_set)], whose order Python leaves to hashing;
    [elements] gives one listing of the set, and the properties below read
    such a list as the set of its members. *)
Inductive rval : Type :=
| VJson (j : json)
| VInt (z : Z)
| VBool (b : bool)
| VTally (t : list (json * Z))
| VKeys (l : list string).

(** A report is a [dict] with string keys, built by assignments. *)
Abbreviation report := (gmap string rval).

(** ** The geometry-type tally ([feature_types]) *)

(** A [dict] keyed by hashable values, in insertion order; an entry keeps
    the key object it was first inserted with. *)
Abbreviation tally := (list (json * Z)).

Definition same_key (hk : pykey) (k : json) : bool :=
  bool_decide (hash_key k = Some hk).

Fixpoint tally_find (hk : pykey) (t : tally) : option Z :=
  match t with
  | [] => None
  | (k, n) :: rest => if same_key hk k then Some n else tally_find hk rest
  end.

Fixpoint tally_store (hk : pykey) (key : json) (n : Z) (t : tally) : tally :=
  match t with
  | [] => [(key, n)]
  | (k, n') :: rest =>
      if same_key hk k then (k, n) :: rest
      else (k, n') :: tally_store hk key n rest
  end.

(** [t.get(key, default)]: hashing an unhashable key raises [TypeError]. *)
Definition tally_get (key : json) (default : Z) (t : tally) : res Z :=
  match hash_key key with
  | None => Raise TypeError
  | Some hk => Ret (match tally_find hk t with Some n => n | None => default end)
  end.

(** [t[key] = n] *)
Definition tally_set (key : json) (n : Z) (t : tally) : res tally :=
  match hash_key key with
  | None => Raise TypeError
  | Some hk => Ret (tally_store hk key n t)
  end.

(** ** analyze_geojson *)

(** Lines 69-70, and again 112-113 and 116-117:
    [if "properties" in feature and feature["properties"]:
         keys.update(feature["properties"].keys())] *)
Definition collect_keys (feature : json) (keys : gset string) : res (gset string) :=
  let* has := py_contains "properties" feature in
  if has then
    let* props := py_getitem feature "properties" in
    if py_truthy props then
      let* props' := py_getitem feature "properties" in
      let* ks := py_keys props' in
      Ret (keys ∪ list_to_set ks)
    else Ret keys
  else Ret keys.

(** The body of the loop of lines 64-70. *)
Definition count_feature (feature : json) (st : tally * gset string)
  : res (tally * gset string) :=
  let '(feature_types, property_keys) := st in
  let* geometry := py_get feature "geometry" (JObj []) in
  let* geo_type := py_get geometry "type" (JStr "Unknown") in
  let* n := tally_get geo_type 0 feature_types in
  let* feature_types := tally_set geo_type (n + 1) feature_types in
  let* property_keys := collect_keys feature property_keys in
  Ret (feature_types, property_keys).

Definition geometry_names : list string :=
  ["Point"; "LineString"; "Polygon"; "MultiPoint";
   "MultiLineString"; "MultiPolygon"; "GeometryCollection"].

(** [x in [s1, ..., sn]] for a list of string literals *)
Definition in_strings (x : json) (l : list string) : bool :=
  existsb (fun s => py_eq x (JStr s)) l.

Definition analyze_geojson (data : json) : res report :=
  let analysis : report := ∅ in
  let* ty := py_get data "type" (JStr "Unknown") in
  let analysis := <["type" := VJson ty]> analysis in
  if py_eqeq ty (JStr "FeatureCollection") then
    let* features := py_get data "features" (JArr []) in
    let* n := py_len features in
    let analysis := <["feature_count" := VInt n]> analysis in
    let* items := py_iter features in
    let* st := for_each count_feature items ([], ∅) in
    let '(feature_types, property_keys) := st in
    let analysis := <["geometry_types" := VTally feature_types]> analysis in
    let analysis := <["property_keys" := VKeys (elements property_keys)]> analysis in
    Ret analysis
  else if py_eqeq ty (JStr "Feature") then
    let* geometry := py_get data "geometry" (JObj []) in
    let* geo_type := py_get geometry "type" (JStr "Unknown") in
    let analysis := <["geometry_type" := VJson geo_type]> analysis in
    let* has := py_contains "properties" data in
    if has then
      let* props := py_getitem data "properties" in
      if py_truthy props then
        let* props' := py_getitem data "properties" in
        let* ks := py_keys props' in
        Ret (<["property_keys" := VKeys ks]> analysis)
      else Ret analysis
    else Ret analysis
  else if in_strings ty geometry_names then
    Ret (<["geometry_type" := VJson ty]> analysis)
  else Ret analysis.

(** ** compare_geojson *)

Definition compare_geojson (geojson1 geojson2 : json) : res report :=
  let differences : report := ∅ in
  let* t1 := py_get geojson1 "type" JNull in
  let* t2 := py_get geojson2 "type" JNull in
  let differences := <["different_types" := VBool (py_ne t1 t2)]> differences in
  let* t1 := py_get geojson1 "type" JNull in
  let* both :=
    (if py_eqeq t1 (JStr "FeatureCollection") then
       let* t2 := py_get geojson2 "type" JNull in
       Ret (py_eqeq t2 (JStr "FeatureCollection"))
     else Ret false) in
  if (both : bool) then
    let* features1 := py_get geojson1 "features" (JArr []) in
    let* features2 := py_get geojson2 "features" (JArr []) in
    let* n1 := py_len features1 in
    let differences := <["feature_count_1" := VInt n1]> differences in
    let* n2 := py_len features2 in
    let differences := <["feature_count_2" := VInt n2]> differences in
    let differences := <["feature_count_diff" := VInt (n1 - n2)]> differences in
    let* items1 := py_iter features1 in
    let* keys1 := for_each collect_keys items1 ∅ in
    let* items2 := py_iter features2 in
    let* keys2 := for_each collect_keys items2 ∅ in
    let differences := <["unique_keys_1" := VKeys (elements (keys1 ∖ keys2))]> differences in
    let differences := <["unique_keys_2" := VKeys (elements (keys2 ∖ keys1))]> differences in
    let differences := <["common_keys" := VKeys (elements (keys1 ∩ keys2))]> differences in
    Ret differences
  else Ret differences.

(** ** validate_geojson *)

(** The part of JSON Schema that [geojson_schema] uses: the keywords
    [type], [required], [enum] and [properties]. *)
#[warnings="-register-all"]
Inductive schema : Type :=
| Schema (ty : option jtype) (required : list string)
         (enum : option (list string)) (properties : list (string * schema)).

Definition geojson_types : list string :=
  ["FeatureCollection"; "Feature"; "Point"; "LineString"; "Polygon";
   "MultiPoint"; "MultiLineString"; "MultiPolygon"; "GeometryCollection"].

(** Lines 19-30. *)
Definition geojson_schema : schema :=
  Schema (Some TObject) ["type"] None
    [("type", Schema (Some TString) [] (Some geojson_types) []);
     ("features", Schema (Some TArray) [] None []);
     ("geometry", Schema (Some TObject) [] None []);
     ("properties", Schema (Some TObject) [] None []);
     ("coordinates", Schema (Some TArray) [] None [])].

(** jsonschema's type checkers: a [dict] is an object, a [list] an array,
    a [str] a string. *)
Definition is_type (t : jtype) (x : json) : bool :=
  match t, x with
  | TObject, JObj _ => true
  | TArray, JArr _ => true
  | TString, JStr _ => true
  | _, _ => false
  end.

(** [validator.iter_errors(instance)]: every violation, keyword by keyword;
    [required] and [properties] apply to objects only. *)
Fixpoint iter_errors (s : schema) (path : list string) (inst : json) : list violation :=
  match s with
  | Schema ty required enum properties =>
      (match ty with
       | Some t => if is_type t inst then [] else [NotOfType path inst t]
       | None => []
       end) ++
      (match inst with
       | JObj m =>
           map (RequiredMissing path)
             (List.filter (fun k => negb (dict_mem k m)) required)
       | _ => []
       end) ++
      (match enum with
       | Some allowed =>
           if in_strings inst allowed then [] else [NotInEnum path inst allowed]
       | None => []
       end) ++
      (fix go (ps : list (string * schema)) : list violation :=
         match ps with
         | [] => []
         | (k, sub) :: rest =>
             (match inst with
              | JObj m =>
                  match dict_get k m with
                  | Some v => iter_errors sub (path ++ [k]) v
                  | None => []
                  end
              | _ => []
              end) ++ go rest
         end) properties
  end.

(** [jsonschema.validate(instance, schema)] raises one of the violations
    when there is any (the library's [best_match] picks which; the choice
    only changes the text of the message).  The library formats the
    message of a [type] or [enum] violation with [repr(instance)], which on
    a very deeply nested instance raises [RecursionError] instead; line 44
    turns that into [False] with the other message, so the flag is the one
    computed here and only the message differs.  The properties below that
    concern validation speak of the flag. *)
Definition jsonschema_validate (inst : json) (s : schema) : res unit :=
  match iter_errors s [] inst with
  | [] => Ret tt
  | e :: _ => Raise (ValidationError e)
  end.

(** The second component of [validate_geojson]'s result: a literal, or an
    f-string around a library message. *)
Inductive message : Type :=
| Msg (s : string)
| MsgInvalid (e : violation)
| MsgError (e : exn).

(** The [try] block, lines 18-41. *)
Definition validate_body (data : json) : res (bool * message) :=
  let* _ := jsonschema_validate data geojson_schema in
  let* ty := py_get data "type" JNull in
  let* no_features :=
    (if py_eqeq ty (JStr "FeatureCollection") then
       let* has := py_contains "features" data in Ret (negb has)
     else Ret false) in
  if (no_features : bool) then
    Ret (false, Msg "FeatureCollection must have 'features' array")
  else
    let* ty := py_get data "type" JNull in
    let* no_geometry :=
      (if py_eqeq ty (JStr "Feature") then
         let* has := py_contains "geometry" data in Ret (negb has)
       else Ret false) in
    if (no_geometry : bool) then
      Ret (false, Msg "Feature must have 'geometry' property")
    else Ret (true, Msg "Valid GeoJSON").

(** The whole function, with its two [except] clauses (lines 42-45). *)
Definition validate_geojson (data : json) : res (bool * message) :=
  match validate_body data with
  | Ret r => Ret r
  | Raise (ValidationError e) => Ret (false, MsgInvalid e)
  | Raise e => Ret (false, MsgError e)
  end.

(** ** The sample documents (lines 139-181) *)

Definition float_of (m : positive) (e : Z) : json := JFloat (S754_finite false m e).

Definition sample_pairs1 : list (string * json) :=
       [("type", JStr "FeatureCollection");
        ("features", JArr [
           JObj [("type", JStr "Feature");
                 ("properties", JObj [("name", JStr "Point 1"); ("value", JInt 42)]);
                 ("geometry", JObj [("type", JStr "Point");
                                    ("coordinates", JArr [JInt 0; JInt 0])])];
           JObj [("type", JStr "Feature");
                 ("properties", JObj [("name", JStr "Line 1"); ("length", float_of 21 (-1))]);
                 ("geometry", JObj [("type", JStr "LineString");
                                    ("coordinates", JArr [JArr [JInt 0; JInt 0];
                                                          JArr [JInt 1; JInt 1]])])]])].

Definition sample_pairs2 : list (string * json) :=
       [("type", JStr "FeatureCollection");
        ("features", JArr [
           JObj [("type", JStr "Feature");
                 ("properties", JObj [("name", JStr "Point A"); ("elevation", JInt 100)]);
                 ("geometry", JObj [("type", JStr "Point");
                                    ("coordinates", JArr [JInt 2; JInt 2])])];
           JObj [("type", JStr "Feature");
                 ("properties", JObj [("name", JStr "Polygon A"); ("area", float_of 25 0)]);
                 ("geometry", JObj [("type", JStr "Polygon");
                                    ("coordinates",
                                      JArr [JArr [JArr [JInt 0; JInt 0]; JArr [JInt 5; JInt 0];
                                                  JArr [JInt 5; JInt 5]; JArr [JInt 0; JInt 5];
                                                  JArr [JInt 0; JInt 0]]])])]])].

Definition sample_geojson1 : json := JObj sample_pairs1.
Definition sample_geojson2 : json := JObj sample_pairs2.

(** A collection of two points, the second with a property. *)
Definition point_a : json :=
  JObj [("type", JStr "Feature");
        ("geometry", JObj [("type", JStr "Point");
                           ("coordinates", JArr [JInt 0; JInt 0])])].

Definition point_b : json :=
  JObj [("type", JStr "Feature");
        ("geometry", JObj [("type", JStr "Point");
                           ("coordinates", JArr [JInt 1; JInt 1])]);
        ("properties", JObj [("name", JStr "b")])].

Definition two_points : list (string * json) :=
  [("type", JStr "FeatureCollection"); ("features", JArr [point_a; point_b])].

(** The same collection with its features in the other order. *)
Definition two_points_swapped : list (string * json) :=
  [("type", JStr "FeatureCollection"); ("features", JArr [point_b; point_a])].

(** Its analysis. *)
Definition two_points_report : report :=
  <["property_keys" := VKeys ["name"]]>
    (<["geometry_types" := VTally [(JStr "Point", 2%Z)]]>
       (<["feature_count" := VInt 2]>
          (<["type" := VJson (JStr "FeatureCollection")]> ∅))).

(** ** Shapes of well-formed input *)

Definition or_default (o : option json) (d : json) : json :=
  match o with Some v => v | None => d end.

Definition is_object (x : json) : bool :=
  match x with JObj _ => true | _ => false end.

(** The value of the [type] field as [x.get("type")] reads it. *)
Definition type_of (m : list (string * json)) : json :=
  or_default (dict_get "type" m) JNull.

(** [properties] is absent, falsy, or an object. *)
Definition readable_properties (m : list (string * json)) : bool :=
  match dict_get "properties" m with
  | None => true
  | Some p => negb (py_truthy p) || is_object p
  end.

(** [geometry] is absent or an object. *)
Definition readable_geometry (m : list (string * json)) : bool :=
  is_object (or_default (dict_get "geometry" m) (JObj [])).

(** What [feature.get("geometry", {}).get("type", "Unknown")] yields on a
    feature with a readable geometry. *)
Definition geometry_type_of (feature : json) : json :=
  match feature with
  | JObj fm =>
      match or_default (dict_get "geometry" fm) (JObj []) with
      | JObj gm => or_default (dict_get "type" gm) (JStr "Unknown")
      | _ => JStr "Unknown"
      end
  | _ => JStr "Unknown"
  end.

(** A feature the comparison loop can read: an object with readable
    properties. *)
Definition plain_feature (feature : json) : bool :=
  match feature with
  | JObj fm => readable_properties fm
  | _ => false
  end.

(** A feature the analysis loop can read: moreover its geometry is
    readable and its geometry type can key a [dict]. *)
Definition countable_feature (feature : json) : bool :=
  match feature with
  | JObj fm =>
      readable_geometry fm
      && (match hash_key (geometry_type_of feature) with Some _ => true | None => false end)
      && readable_properties fm
  | _ => false
  end.

(** The [features] array of a document ([[]] when there is none). *)
Definition collection_features (d : json) : list json :=
  match d with
  | JObj m => match dict_get "features" m with Some (JArr l) => l | _ => [] end
  | _ => []
  end.

(** [features] is absent or an array. *)
Definition features_readable (m : list (string * json)) : bool :=
  match dict_get "features" m with
  | None | Some (JArr _) => true
  | Some _ => false
  end.

(** A document every field of which [analyze_geojson] can read. *)
Definition well_shaped (d : json) : bool :=
  match d with
  | JObj m =>
      let ty := or_default (dict_get "type" m) (JStr "Unknown") in
      if py_eqeq ty (JStr "FeatureCollection") then
        features_readable m && forallb countable_feature (collection_features d)
      else if py_eqeq ty (JStr "Feature") then
        readable_geometry m && readable_properties m
      else true
  | _ => false
  end.

(** The keys of the [properties] object of a feature. *)
Definition feature_keys (feature : json) : list string :=
  match feature with
  | JObj fm =>
      match dict_get "properties" fm with
      | Some (JObj pm) => dict_keys pm
      | _ => []
      end
  | _ => []
  end.

(** All property keys occurring in a sequence of features. *)
Definition property_universe (features : list json) : gset string :=
  list_to_set (flat_map feature_keys features).

(** How many of the features have a geometry type with key [hk]. *)
Definition occurrences (hk : pykey) (features : list json) : nat :=
  length (List.filter (fun f => same_key hk (geometry_type_of f)) features).

(** The fields of the base schema other than [type] have their kinds. *)
Definition field_is (t : jtype) (k : string) (m : list (string * json)) : bool :=
  match dict_get k m with
  | Some v => is_type t v
  | None => true
  end.

Definition fields_typed (m : list (string * json)) : bool :=
  field_is TArray "features" m && field_is TObject "geometry" m
  && field_is TObject "properties" m && field_is TArray "coordinates" m.

(** What the base schema demands of an object. *)
Definition schema_accepts (m : list (string * json)) : bool :=
  match dict_get "type" m with
  | Some v => in_strings v geojson_types
  | None => false
  end && fields_typed m.

(** The verdict of [validate_geojson] on an object. *)
Definition verdict (m : list (string * json)) : bool :=
  schema_accepts m
  && negb (py_eqeq (type_of m) (JStr "FeatureCollection") && negb (dict_mem "features" m))
  && negb (py_eqeq (type_of m) (JStr "Feature") && negb (dict_mem "geometry" m)).

(** The count a tally holds for a key after [n] more occurrences. *)
Definition bump (o : option Z) (n : nat) : option Z :=
  match n with
  | O => o
  | _ => Some (match o with Some z => z | None => 0 end + Z.of_nat n)%Z
  end.

(** The keys of a tally, as a [dict] sees them. *)
Definition tally_keys (t : tally) : list (option pykey) :=
  map (fun e => hash_key (fst e)) t.

(** A tally is a mapping: its keys can be hashed and differ pairwise. *)
Definition tally_wf (t : tally) : Prop :=
  NoDup (tally_keys t) /\ Forall (fun k => k <> None) (tally_keys t).

(** ** The caller's choice of features to plot (lines 338-342, 345-349) *)

(** [data["features"] if data.get("type") == "FeatureCollection"
     else [data] if data.get("type") == "Feature" else []], the argument
    the caller hands to [GeoDataFrame.from_features]. *)
Definition plot_features (data : json) : res json :=
  let* ty := py_get data "type" JNull in
  if py_eqeq ty (JStr "FeatureCollection") then py_getitem data "features"
  else
    let* ty := py_get data "type" JNull in
    if py_eqeq ty (JStr "Feature") then Ret (JArr [data]) else Ret (JArr []).

(** The sum of the counts of a tally. *)
Definition tally_total (t : tally) : Z :=
  fold_right (fun e acc => (snd e + acc)%Z) 0%Z t.

(** A feature with a point geometry and one property, as a document. *)
Definition feature_doc : list (string * json) :=
  [("type", JStr "Feature");
   ("geometry", JObj [("type", JStr "Point");
                      ("coordinates", JArr [JInt 1; JInt 1])]);
   ("properties", JObj [("name", JStr "b")])].

(** A bare geometry without coordinates. *)
Definition point_doc : list (string * json) := [("type", JStr "Point")].

(** * Properties *)

(** ** Equality against string literals *)

Lemma hash_key_str (v : json) (s : string) :
  hash_key v = Some (KStr s) -> v = JStr s.
Proof.
  destruct v as [|b|z|f|t|l|m]; simpl; intros H; try discriminate.
  - destruct b; discriminate.
  - destruct z; simpl in H; try destruct (strip _ _); discriminate.
  - destruct f; simpl in H; try destruct (strip _ _); discriminate.
  - congruence.
Qed.

Lemma py_eq_str (v : json) (s : string) :
  py_eq v (JStr s) = true <-> v = JStr s.
Proof.
  split.
  - destruct v; simpl; try discriminate; intros H;
      apply bool_decide_eq_true in H; symmetry in H;
      apply hash_key_str; simpl; congruence.
  - intros ->. simpl. by apply bool_decide_eq_true.
Qed.

Lemma py_eqeq_str (v : json) (s : string) :
  py_eqeq v (JStr s) = true <-> v = JStr s.
Proof.
  rewrite <- py_eq_str. unfold py_eqeq.
  destruct v as [| | |f| | |]; try reflexivity. destruct f; reflexivity.
Qed.

Lemma py_eqeq_str_false (v : json) (s : string) :
  py_eqeq v (JStr s) = false <-> v <> JStr s.
Proof.
  rewrite <- py_eqeq_str. destruct (py_eqeq v (JStr s)); split; congruence.
Qed.

Lemma in_strings_true (v : json) (l : list string) :
  in_strings v l = true <-> exists s, v = JStr s /\ In s l.
Proof.
  unfold in_strings. rewrite existsb_exists. split.
  - intros (s & Hin & Heq). apply py_eq_str in Heq. eauto.
  - intros (s & -> & Hin). exists s. split; [done|]. by apply py_eq_str.
Qed.

(** ** The base schema *)

Lemma leaf_errors (t : jtype) (en : option (list string)) (path : list string) (v : json) :
  iter_errors (Schema (Some t) [] en []) path v = [] <->
  is_type t v && match en with Some l => in_strings v l | None => true end = true.
Proof.
  cbn [iter_errors].
  assert (Hreq : match v with
                 | JObj m => map (RequiredMissing path)
                               (List.filter (fun k => negb (dict_mem k m)) [])
                 | _ => []
                 end = []) by (by destruct v).
  rewrite Hreq. clear Hreq.
  destruct (is_type t v); destruct en as [l|]; cbn; try destruct (in_strings v l);
    cbn; split; congruence.
Qed.

Lemma in_strings_is_string (v : json) (l : list string) :
  in_strings v l = true -> is_type TString v = true.
Proof. intros (s & -> & _)%in_strings_true. reflexivity. Qed.


Lemma iter_errors_properties (ty : option jtype) (req : list string)
    (en : option (list string)) (props : list (string * schema))
    (path : list string) (m : list (string * json)) :
  iter_errors (Schema ty req en props) path (JObj m) = [] <->
  iter_errors (Schema ty req en []) path (JObj m) = [] /\
  Forall (fun '(k, sub) =>
            match dict_get k m with
            | Some v => iter_errors sub (path ++ [k]) v = []
            | None => True
            end) props.
Proof.
  cbn [iter_errors]. rewrite !app_nil.
  assert (Hprops : forall ps,
    (fix go (ps : list (string * schema)) : list violation :=
       match ps with
       | [] => []
       | (k, sub) :: rest =>
           match dict_get k m with
           | Some v => iter_errors sub (path ++ [k]) v
           | None => []
           end ++ go rest
       end) ps = [] <->
    Forall (fun '(k, sub) =>
              match dict_get k m with
              | Some v => iter_errors sub (path ++ [k]) v = []
              | None => True
              end) ps).
  { induction ps as [|[k sub] rest IH].
    - split; [constructor | reflexivity].
    - rewrite app_nil, Forall_cons, IH.
      destruct (dict_get k m); intuition. }
  rewrite Hprops. intuition.
Qed.


Lemma root_errors (m : list (string * json)) :
  iter_errors (Schema (Some TObject) ["type"] None []) [] (JObj m) = [] <->
  dict_mem "type" m = true.
Proof.
  cbn. destruct (dict_mem "type" m); cbn; split; congruence.
Qed.

Lemma iter_errors_geojson m :
  iter_errors geojson_schema [] (JObj m) = [] <-> schema_accepts m = true.
Proof.
  unfold geojson_schema. rewrite iter_errors_properties, root_errors.
  rewrite !Forall_cons, Forall_nil.
  unfold schema_accepts, fields_typed, field_is, dict_mem.
  destruct (dict_get "type" m) as [ty|] eqn:Ht.
  2: { cbn. intuition discriminate. }
  rewrite !andb_true_iff.
  pose proof (in_strings_is_string ty geojson_types).
  destruct (dict_get "features" m), (dict_get "geometry" m),
    (dict_get "properties" m), (dict_get "coordinates" m);
    rewrite ?leaf_errors, ?andb_true_r, ?andb_true_iff; intuition.
Qed.

(** [validate_geojson] on an object, clause by clause. *)
Lemma validate_object (m : list (string * json)) :
  validate_geojson (JObj m) =
  match iter_errors geojson_schema [] (JObj m) with
  | e :: _ => Ret (false, MsgInvalid e)
  | [] =>
      if py_eqeq (type_of m) (JStr "FeatureCollection") && negb (dict_mem "features" m)
      then Ret (false, Msg "FeatureCollection must have 'features' array")
      else if py_eqeq (type_of m) (JStr "Feature") && negb (dict_mem "geometry" m)
      then Ret (false, Msg "Feature must have 'geometry' property")
      else Ret (true, Msg "Valid GeoJSON")
  end.
Proof.
  unfold validate_geojson, validate_body, jsonschema_validate, type_of, or_default.
  destruct (iter_errors geojson_schema [] (JObj m)); [|reflexivity].
  cbn [bind py_get py_contains].
  destruct (py_eqeq _ (JStr "FeatureCollection")), (py_eqeq _ (JStr "Feature")),
    (dict_mem "features" m), (dict_mem "geometry" m); reflexivity.
Qed.

Lemma validate_verdict (m : list (string * json)) :
  exists msg, validate_geojson (JObj m) = Ret (verdict m, msg).
Proof.
  rewrite validate_object. unfold verdict.
  destruct (iter_errors geojson_schema [] (JObj m)) as [|e l] eqn:He.
  - apply iter_errors_geojson in He. rewrite He.
    destruct (_ && negb (dict_mem "features" m)); [by eexists|].
    destruct (_ && negb (dict_mem "geometry" m)); by eexists.
  - assert (schema_accepts m = false) as ->.
    { destruct (schema_accepts m) eqn:Hs; [|done].
      apply iter_errors_geojson in Hs. congruence. }
    by eexists.
Qed.

Lemma validate_valid_message (m : list (string * json)) (msg : message) :
  validate_geojson (JObj m) = Ret (true, msg) -> msg = Msg "Valid GeoJSON".
Proof.
  rewrite validate_object.
  destruct (iter_errors _ _ _); [|congruence].
  repeat (match goal with |- context [if ?b then _ else _] => destruct b end);
    congruence.
Qed.

(** ** Collecting property keys *)

Lemma property_universe_cons (f : json) (fs : list json) :
  property_universe (f :: fs) = list_to_set (feature_keys f) ∪ property_universe fs.
Proof. unfold property_universe. cbn [flat_map]. by rewrite list_to_set_app_L. Qed.

Lemma collect_keys_object (fm : list (string * json)) (keys : gset string) :
  collect_keys (JObj fm) keys =
  if readable_properties fm
  then Ret (keys ∪ list_to_set (feature_keys (JObj fm)))
  else Raise AttributeError.
Proof.
  unfold collect_keys, readable_properties, feature_keys.
  cbn [py_contains py_getitem bind]. unfold dict_mem.
  destruct (dict_get "properties" fm) as [p|]; cbn [bind].
  - destruct p as [|b|z|f|t|l|pm]; cbn;
      try (f_equal; set_solver).
    + destruct b; cbn; [done | f_equal; set_solver].
    + destruct (negb (z =? 0)%Z); cbn; [done | f_equal; set_solver].
    + destruct f; cbn; try done; f_equal; set_solver.
    + destruct (negb (String.eqb t "")); cbn; [done | f_equal; set_solver].
    + destruct l; cbn; [f_equal; set_solver | done].
    + destruct pm; cbn; [f_equal; set_solver | done].
  - f_equal. cbn. set_solver.
Qed.

Lemma collect_keys_ret (f : json) (keys keys' : gset string) :
  collect_keys f keys = Ret keys' ->
  keys' = keys ∪ list_to_set (feature_keys f).
Proof.
  destruct f as [|b|z|x|t|l|fm]; try discriminate.
  - unfold collect_keys. cbn [py_contains bind].
    destruct (str_contains "properties" t); cbn; [discriminate|].
    intros [= <-]. set_solver.
  - unfold collect_keys. cbn [py_contains bind].
    destruct (existsb _ l); cbn; [discriminate|].
    intros [= <-]. set_solver.
  - rewrite collect_keys_object. destruct (readable_properties fm); congruence.
Qed.

Lemma collect_keys_plain (f : json) (keys : gset string) :
  plain_feature f = true ->
  collect_keys f keys = Ret (keys ∪ list_to_set (feature_keys f)).
Proof.
  destruct f; try discriminate. cbn [plain_feature]. intros H.
  by rewrite collect_keys_object, H.
Qed.

Lemma collect_all_ret (fs : list json) (keys keys' : gset string) :
  for_each collect_keys fs keys = Ret keys' ->
  keys' = keys ∪ property_universe fs.
Proof.
  revert keys. induction fs as [|f fs IH]; intros keys; cbn [for_each].
  - intros [= <-]. unfold property_universe. cbn. set_solver.
  - destruct (collect_keys f keys) as [k1|e] eqn:Hf; cbn [bind]; [|discriminate].
    intros H%IH. apply collect_keys_ret in Hf. subst.
    rewrite property_universe_cons. set_solver.
Qed.

Lemma collect_all_plain (fs : list json) (keys : gset string) :
  forallb plain_feature fs = true ->
  for_each collect_keys fs keys = Ret (keys ∪ property_universe fs).
Proof.
  revert keys. induction fs as [|f fs IH]; intros keys; cbn [for_each forallb].
  - intros _. f_equal. unfold property_universe. cbn. set_solver.
  - intros [Hf Hfs]%andb_true_iff.
    rewrite (collect_keys_plain _ _ Hf). cbn [bind]. rewrite (IH _ Hfs).
    f_equal. rewrite property_universe_cons. set_solver.
Qed.

(** The strings a loop over a [str] or over a [dict] yields carry no
    property keys. *)
Lemma property_universe_strings (l : list string) :
  property_universe (map JStr l) = ∅.
Proof.
  induction l as [|s l IH]; [done|].
  cbn [map]. rewrite property_universe_cons, IH. cbn. set_solver.
Qed.

Lemma property_universe_iter (x : json) (items : list json) :
  py_iter x = Ret items ->
  property_universe items =
  property_universe (match x with JArr l => l | _ => [] end).
Proof.
  destruct x; cbn; try discriminate; intros [= <-];
    try apply property_universe_strings; done.
Qed.

Lemma elem_of_property_universe (k : string) (fs : list json) :
  k ∈ property_universe fs <-> exists f, f ∈ fs /\ k ∈ feature_keys f.
Proof.
  unfold property_universe. rewrite elem_of_list_to_set, list_elem_of_In, in_flat_map.
  split; intros (f & H1 & H2); exists f; by rewrite ?list_elem_of_In in *.
Qed.

Lemma property_universe_perm (fs fs' : list json) :
  Permutation fs fs' -> property_universe fs = property_universe fs'.
Proof.
  intros Hp. apply set_eq. intros k. rewrite !elem_of_property_universe.
  split; intros (f & Hf & Hk); exists f; split; try done.
  - by rewrite <- Hp.
  - by rewrite Hp.
Qed.

(** ** The tally *)

Lemma same_key_hash (hk hk' : pykey) (k : json) :
  hash_key k = Some hk -> same_key hk' k = bool_decide (hk = hk').
Proof.
  intros H. unfold same_key. rewrite H.
  apply bool_decide_ext. split; congruence.
Qed.

Lemma tally_find_store (hk hk' : pykey) (key : json) (n : Z) (t : tally) :
  hash_key key = Some hk ->
  tally_find hk' (tally_store hk key n t) =
  if bool_decide (hk = hk') then Some n else tally_find hk' t.
Proof.
  intros Hk. induction t as [|[k n'] t IH]; cbn [tally_store tally_find].
  - by rewrite (same_key_hash hk hk' key Hk).
  - destruct (same_key hk k) eqn:Hs; cbn [tally_find].
    + apply bool_decide_eq_true in Hs.
      rewrite (same_key_hash hk hk' k Hs). by destruct (bool_decide (hk = hk')).
    + rewrite IH. destruct (same_key hk' k) eqn:Hs'; [|done].
      case_bool_decide; [subst; congruence | done].
Qed.

Lemma tally_keys_store (hk : pykey) (key : json) (n : Z) (t : tally) :
  hash_key key = Some hk ->
  tally_keys (tally_store hk key n t) =
  if bool_decide (Some hk ∈ tally_keys t) then tally_keys t
  else tally_keys t ++ [Some hk].
Proof.
  intros Hk. unfold tally_keys.
  induction t as [|[k n'] t IH]; cbn [tally_store map fst].
  - rewrite bool_decide_eq_false_2 by apply not_elem_of_nil. cbn. by rewrite Hk.
  - destruct (same_key hk k) eqn:Hs; cbn [map fst].
    + apply bool_decide_eq_true in Hs.
      rewrite bool_decide_eq_true_2; [done | rewrite <- Hs; apply list_elem_of_here].
    + apply bool_decide_eq_false in Hs. rewrite IH.
      case_bool_decide as Hin.
      * rewrite bool_decide_eq_true_2; [done | by apply list_elem_of_further].
      * rewrite bool_decide_eq_false_2; [done|].
        intros [Heq|?]%elem_of_cons; [congruence|done].
Qed.

Lemma tally_wf_store (hk : pykey) (key : json) (n : Z) (t : tally) :
  hash_key key = Some hk -> tally_wf t -> tally_wf (tally_store hk key n t).
Proof.
  intros Hk [Hnd Hall]. unfold tally_wf. rewrite (tally_keys_store _ _ _ _ Hk).
  case_bool_decide as Hin; [done|]. split.
  - apply NoDup_app. split_and!; [done | | apply NoDup_singleton].
    intros x Hx ->%list_elem_of_singleton. done.
  - apply Forall_app. split; [done|]. by repeat constructor.
Qed.

Lemma bump_succ (o : option Z) (n : nat) :
  bump (Some (match o with Some z => z | None => 0 end + 1)%Z) n = bump o (S n).
Proof.
  destruct n; cbn [bump]; f_equal; lia.
Qed.

(** ** One round of the analysis loop *)

Lemma count_feature_countable (f : json) (t : tally) (ks : gset string) :
  countable_feature f = true ->
  exists hk, hash_key (geometry_type_of f) = Some hk /\
    count_feature f (t, ks) =
    Ret (tally_store hk (geometry_type_of f)
           (match tally_find hk t with Some z => z | None => 0 end + 1) t,
         ks ∪ list_to_set (feature_keys f)).
Proof.
  destruct f as [| | | | | |fm]; try discriminate.
  cbn [countable_feature]. intros [[Hg Hh]%andb_true_iff Hp]%andb_true_iff.
  destruct (hash_key (geometry_type_of (JObj fm))) as [hk|] eqn:Hhk; [|discriminate].
  exists hk. split; [done|].
  unfold count_feature. cbn [py_get bind].
  unfold readable_geometry in Hg. unfold geometry_type_of in Hhk |- *.
  destruct (or_default (dict_get "geometry" fm) (JObj [])) as [| | | | | |gm] eqn:Hgeo;
    try discriminate.
  unfold or_default in Hgeo. rewrite Hgeo. cbn [py_get bind].
  unfold or_default in Hhk |- *.
  unfold tally_get, tally_set. rewrite Hhk. cbn [bind].
  rewrite collect_keys_object, Hp. cbn [bind]. reflexivity.
Qed.

Lemma count_feature_uncountable (f : json) (st : tally * gset string) :
  countable_feature f = false -> exists e, count_feature f st = Raise e.
Proof.
  destruct st as [t ks]. destruct f as [| | | | | |fm]; try (by eexists).
  cbn [countable_feature]. unfold count_feature. cbn [py_get bind].
  unfold readable_geometry, geometry_type_of, or_default.
  destruct (match dict_get "geometry" fm with Some v => v | None => JObj [] end)
    as [| | | | | |gm]; try (by eexists).
  cbn [is_object andb py_get bind]. unfold tally_get, tally_set.
  destruct (hash_key _) as [hk|]; cbn [bind andb]; [|by eexists].
  rewrite collect_keys_object. intros ->. by eexists.
Qed.

Lemma count_all_ret (fs : list json) (t t' : tally) (ks ks' : gset string) :
  for_each count_feature fs (t, ks) = Ret (t', ks') ->
  forallb countable_feature fs = true /\
  ks' = ks ∪ property_universe fs /\
  (tally_wf t -> tally_wf t') /\
  forall hk, tally_find hk t' = bump (tally_find hk t) (occurrences hk fs).
Proof.
  revert t ks. induction fs as [|f fs IH]; intros t ks; cbn [for_each forallb].
  - intros [= <- <-]. split_and!; try done.
    unfold property_universe. cbn. set_solver.
  - destruct (countable_feature f) eqn:Hc.
    + destruct (count_feature_countable f t ks Hc) as (hk & Hhk & ->).
      cbn [bind]. intros (Hall & -> & Hwf & Hfind)%IH.
      split_and!; [done | | |].
      * rewrite property_universe_cons. set_solver.
      * intros Ht. by apply Hwf, tally_wf_store.
      * intros hk'. rewrite Hfind, (tally_find_store _ _ _ _ _ Hhk).
        unfold occurrences. cbn [List.filter].
        rewrite (same_key_hash _ hk' _ Hhk).
        case_bool_decide as Heq; [|done].
        subst hk'. cbn [length]. apply bump_succ.
    + destruct (count_feature_uncountable f (t, ks) Hc) as (e & ->). discriminate.
Qed.

Lemma count_all_countable (fs : list json) (st : tally * gset string) :
  forallb countable_feature fs = true ->
  exists st', for_each count_feature fs st = Ret st'.
Proof.
  revert st. induction fs as [|f fs IH]; intros [t ks]; cbn [for_each forallb].
  - by eexists.
  - intros [Hf Hfs]%andb_true_iff.
    destruct (count_feature_countable f t ks Hf) as (hk & _ & ->). cbn [bind].
    by apply IH.
Qed.

Lemma forallb_perm (P : json -> bool) (l l' : list json) :
  Permutation l l' -> forallb P l = forallb P l'.
Proof.
  induction 1; cbn; try congruence.
  by rewrite !andb_assoc, (andb_comm (P y)).
Qed.

(** ** analyze_geojson, branch by branch *)

Lemma str_chars_nil (s : string) : str_chars s = [] -> s = "".
Proof. by destruct s. Qed.

Lemma countable_strings (l : list string) :
  forallb countable_feature (map JStr l) = true -> l = [].
Proof. by destruct l. Qed.

(** What the loop runs over, when it can finish. *)
Lemma iter_countable (x : json) (n : Z) (items : list json) :
  py_len x = Ret n -> py_iter x = Ret items ->
  forallb countable_feature items = true ->
  items = match x with JArr l => l | _ => [] end /\ n = Z.of_nat (length items).
Proof.
  destruct x as [| | | |s|l|fm]; cbn; try discriminate; intros [= <-] [= <-] Hall.
  - apply countable_strings in Hall as Hnil. rewrite Hnil.
    apply str_chars_nil in Hnil. by subst.
  - done.
  - apply countable_strings in Hall as Hnil. unfold dict_len. by rewrite Hnil.
Qed.

Lemma analyze_collection_ret (m : list (string * json)) (r : report) :
  dict_get "type" m = Some (JStr "FeatureCollection") ->
  analyze_geojson (JObj m) = Ret r ->
  let fs := collection_features (JObj m) in
  exists t,
    for_each count_feature fs ([], ∅) = Ret (t, property_universe fs) /\
    r = <["property_keys" := VKeys (elements (property_universe fs))]>
          (<["geometry_types" := VTally t]>
             (<["feature_count" := VInt (Z.of_nat (length fs))]>
                (<["type" := VJson (JStr "FeatureCollection")]> ∅))).
Proof.
  intros Hty. unfold analyze_geojson. cbn [py_get bind]. rewrite Hty.
  rewrite (proj2 (py_eqeq_str _ _) eq_refl).
  set (x := match dict_get "features" m with Some v => v | None => JArr [] end).
  assert (Hx : collection_features (JObj m) = match x with JArr l => l | _ => [] end).
  { unfold x, collection_features. by destruct (dict_get "features" m) as [[]|]. }
  destruct (py_len x) as [n|] eqn:Hlen; cbn [bind]; [|discriminate].
  destruct (py_iter x) as [items|] eqn:Hit; cbn [bind]; [|discriminate].
  destruct (for_each count_feature items ([], ∅)) as [[t ks]|] eqn:Hloop;
    cbn [bind]; [|discriminate].
  intros [= <-]. cbn zeta.
  pose proof (count_all_ret _ _ _ _ _ Hloop) as (Hall & Hks & _ & _).
  destruct (iter_countable _ _ _ Hlen Hit Hall) as [Hitems ->].
  rewrite Hx, <- Hitems. exists t.
  assert (ks = property_universe items) as -> by (rewrite Hks; set_solver).
  done.
Qed.

Lemma analyze_collection_ok (m : list (string * json)) :
  dict_get "type" m = Some (JStr "FeatureCollection") ->
  features_readable m = true ->
  forallb countable_feature (collection_features (JObj m)) = true ->
  exists r, analyze_geojson (JObj m) = Ret r.
Proof.
  intros Hty Hf Hall. unfold analyze_geojson. cbn [py_get bind]. rewrite Hty.
  rewrite (proj2 (py_eqeq_str _ _) eq_refl).
  unfold features_readable in Hf. unfold collection_features in Hall.
  destruct (dict_get "features" m) as [[| | | | |l|]|]; try discriminate;
    cbn [py_len py_iter bind].
  - destruct (count_all_countable l ([], ∅) Hall) as [[t ks] ->]. by eexists.
  - by eexists.
Qed.

Lemma analyze_feature_ret (m : list (string * json)) (r : report) :
  dict_get "type" m = Some (JStr "Feature") ->
  analyze_geojson (JObj m) = Ret r ->
  readable_geometry m = true /\ readable_properties m = true /\
  let base : report :=
    <["geometry_type" := VJson (geometry_type_of (JObj m))]>
      (<["type" := VJson (JStr "Feature")]> ∅) in
  r = match dict_get "properties" m with
      | Some (JObj (p :: pm)) => <["property_keys" := VKeys (dict_keys (p :: pm))]> base
      | _ => base
      end.
Proof.
  intros Hty. unfold analyze_geojson. cbn [py_get bind]. rewrite Hty.
  assert (py_eqeq (JStr "Feature") (JStr "FeatureCollection") = false) as ->
    by (by apply py_eqeq_str_false).
  rewrite (proj2 (py_eqeq_str _ _) eq_refl).
  unfold readable_geometry, readable_properties, geometry_type_of, or_default.
  destruct (match dict_get "geometry" m with Some v => v | None => JObj [] end)
    as [| | | | | |gm]; try discriminate.
  cbn [py_get bind py_contains py_getitem is_object]. unfold dict_mem.
  destruct (dict_get "properties" m) as [p|]; cbn [bind]; [|by intros [= <-]].
  destruct p as [|b|z|f|s|l|pm]; cbn [py_truthy py_keys bind is_object negb orb].
  - by intros [= <-].
  - destruct b; cbn; [discriminate | by intros [= <-]].
  - destruct (negb (z =? 0)%Z); cbn; [discriminate | by intros [= <-]].
  - destruct f; cbn; try discriminate; by intros [= <-].
  - destruct (negb (String.eqb s "")); cbn; [discriminate | by intros [= <-]].
  - destruct l; cbn; [by intros [= <-] | discriminate].
  - destruct pm; cbn; by intros [= <-].
Qed.

Lemma analyze_feature_ok (m : list (string * json)) :
  dict_get "type" m = Some (JStr "Feature") ->
  readable_geometry m = true -> readable_properties m = true ->
  exists r, analyze_geojson (JObj m) = Ret r.
Proof.
  intros Hty Hg Hp. unfold analyze_geojson. cbn [py_get bind]. rewrite Hty.
  assert (py_eqeq (JStr "Feature") (JStr "FeatureCollection") = false) as ->
    by (by apply py_eqeq_str_false).
  rewrite (proj2 (py_eqeq_str _ _) eq_refl).
  unfold readable_geometry, or_default in Hg.
  destruct (match dict_get "geometry" m with Some v => v | None => JObj [] end)
    as [| | | | | |gm]; try discriminate.
  cbn [py_get bind py_contains py_getitem]. unfold dict_mem.
  unfold readable_properties in Hp.
  destruct (dict_get "properties" m) as [p|]; cbn [bind]; [|by eexists].
  destruct (py_truthy p); cbn [bind]; [|by eexists].
  destruct p; try discriminate. by eexists.
Qed.

Lemma analyze_other (m : list (string * json)) :
  let ty := or_default (dict_get "type" m) (JStr "Unknown") in
  ty <> JStr "FeatureCollection" -> ty <> JStr "Feature" ->
  analyze_geojson (JObj m) =
  Ret (if in_strings ty geometry_names
       then <["geometry_type" := VJson ty]> (<["type" := VJson ty]> ∅)
       else <["type" := VJson ty]> ∅).
Proof.
  intros ty H1 H2. unfold analyze_geojson. cbn [py_get bind]. fold (or_default (dict_get "type" m) (JStr "Unknown")). fold ty.
  apply py_eqeq_str_false in H1, H2. rewrite H1, H2.
  by destruct (in_strings ty geometry_names).
Qed.

(** ** compare_geojson, branch by branch *)

Lemma compare_other (a b : list (string * json)) :
  type_of a <> JStr "FeatureCollection" \/ type_of b <> JStr "FeatureCollection" ->
  compare_geojson (JObj a) (JObj b) =
  Ret {["different_types" := VBool (py_ne (type_of a) (type_of b))]}.
Proof.
  intros H. unfold compare_geojson. cbn [py_get bind].
  fold (or_default (dict_get "type" a) JNull) (or_default (dict_get "type" b) JNull).
  fold (type_of a) (type_of b).
  destruct (py_eqeq (type_of a) (JStr "FeatureCollection")) eqn:Ha; cbn [bind]; [|done].
  destruct (py_eqeq (type_of b) (JStr "FeatureCollection")) eqn:Hb; [|done].
  apply py_eqeq_str in Ha, Hb. tauto.
Qed.

Lemma type_of_get (m : list (string * json)) (s : string) :
  dict_get "type" m = Some (JStr s) -> type_of m = JStr s.
Proof. unfold type_of. by intros ->. Qed.

Lemma compare_collections_ret (a b : list (string * json)) (r : report) :
  dict_get "type" a = Some (JStr "FeatureCollection") ->
  dict_get "type" b = Some (JStr "FeatureCollection") ->
  compare_geojson (JObj a) (JObj b) = Ret r ->
  let keys1 := property_universe (collection_features (JObj a)) in
  let keys2 := property_universe (collection_features (JObj b)) in
  exists n1 n2,
    py_len (or_default (dict_get "features" a) (JArr [])) = Ret n1 /\
    py_len (or_default (dict_get "features" b) (JArr [])) = Ret n2 /\
    r = <["common_keys" := VKeys (elements (keys1 ∩ keys2))]>
          (<["unique_keys_2" := VKeys (elements (keys2 ∖ keys1))]>
             (<["unique_keys_1" := VKeys (elements (keys1 ∖ keys2))]>
                (<["feature_count_diff" := VInt (n1 - n2)]>
                   (<["feature_count_2" := VInt n2]>
                      (<["feature_count_1" := VInt n1]>
                         (<["different_types" := VBool false]> ∅)))))).
Proof.
  intros Ha Hb. unfold compare_geojson. cbn [py_get bind]. rewrite Ha, Hb.
  rewrite (proj2 (py_eqeq_str _ _) eq_refl). cbn [bind].
  assert (py_ne (JStr "FeatureCollection") (JStr "FeatureCollection") = false) as ->
    by (unfold py_ne; by rewrite (proj2 (py_eqeq_str _ _) eq_refl)).
  fold (or_default (dict_get "features" a) (JArr []))
       (or_default (dict_get "features" b) (JArr [])).
  set (x1 := or_default (dict_get "features" a) (JArr [])).
  set (x2 := or_default (dict_get "features" b) (JArr [])).
  assert (H1 : collection_features (JObj a) = match x1 with JArr l => l | _ => [] end).
  { unfold x1, collection_features. by destruct (dict_get "features" a) as [[]|]. }
  assert (H2 : collection_features (JObj b) = match x2 with JArr l => l | _ => [] end).
  { unfold x2, collection_features. by destruct (dict_get "features" b) as [[]|]. }
  destruct (py_len x1) as [n1|]; cbn [bind]; [|discriminate].
  destruct (py_len x2) as [n2|]; cbn [bind]; [|discriminate].
  destruct (py_iter x1) as [items1|] eqn:Hi1; cbn [bind]; [|discriminate].
  destruct (for_each collect_keys items1 ∅) as [k1|] eqn:Hk1; cbn [bind]; [|discriminate].
  destruct (py_iter x2) as [items2|] eqn:Hi2; cbn [bind]; [|discriminate].
  destruct (for_each collect_keys items2 ∅) as [k2|] eqn:Hk2; cbn [bind]; [|discriminate].
  intros [= <-]. exists n1, n2. split_and!; try done.
  apply collect_all_ret in Hk1, Hk2.
  rewrite (property_universe_iter _ _ Hi1), <- H1 in Hk1.
  rewrite (property_universe_iter _ _ Hi2), <- H2 in Hk2.
  rewrite (left_id_L ∅ (∪)) in Hk1, Hk2. by subst.
Qed.

Lemma compare_collections_ok (a b : list (string * json)) :
  dict_get "type" a = Some (JStr "FeatureCollection") ->
  dict_get "type" b = Some (JStr "FeatureCollection") ->
  features_readable a = true -> features_readable b = true ->
  forallb plain_feature (collection_features (JObj a)) = true ->
  forallb plain_feature (collection_features (JObj b)) = true ->
  exists r, compare_geojson (JObj a) (JObj b) = Ret r.
Proof.
  intros Ha Hb Hfa Hfb Hpa Hpb. unfold compare_geojson. cbn [py_get bind].
  rewrite Ha, Hb. rewrite (proj2 (py_eqeq_str _ _) eq_refl). cbn [bind].
  unfold features_readable in Hfa, Hfb. unfold collection_features in Hpa, Hpb.
  destruct (dict_get "features" a) as [[| | | | |l1|]|]; try discriminate;
    destruct (dict_get "features" b) as [[| | | | |l2|]|]; try discriminate;
    cbn [py_len py_iter bind];
    rewrite ?(collect_all_plain _ _ Hpa), ?(collect_all_plain _ _ Hpb);
    cbn [for_each bind]; rewrite ?(collect_all_plain _ _ Hpb); cbn [bind];
    by eexists.
Qed.

(** The two sample documents compare as the application shows them. *)
Example compare_samples :
  compare_geojson sample_geojson1 sample_geojson2 =
  Ret (<["common_keys" := VKeys ["name"]]>
         (<["unique_keys_2" := VKeys ["elevation"; "area"]]>
            (<["unique_keys_1" := VKeys ["value"; "length"]]>
               (<["feature_count_diff" := VInt 0]>
                  (<["feature_count_2" := VInt 2]>
                     (<["feature_count_1" := VInt 2]>
                        (<["different_types" := VBool false]> ∅))))))).
Proof. vm_compute. reflexivity. Qed.

Example validate_samples :
  validate_geojson sample_geojson1 = Ret (true, Msg "Valid GeoJSON") /\
  validate_geojson sample_geojson2 = Ret (true, Msg "Valid GeoJSON").
Proof. split; vm_compute; reflexivity. Qed.

(** ** The type field of the analysis report *)

Lemma or_default_type (m : list (string * json)) (s : string) :
  or_default (dict_get "type" m) (JStr "Unknown") = JStr s ->
  s <> "Unknown" -> dict_get "type" m = Some (JStr s).
Proof.
  destruct (dict_get "type" m); cbn; [congruence|].
  intros [= <-]. done.
Qed.

(** Whenever [analyze_geojson] returns a report, its [type] field holds the
    document's [type], or ["Unknown"] when the document has none. *)
Lemma analyze_ret_type (m : list (string * json)) (r : report) :
  analyze_geojson (JObj m) = Ret r ->
  r !! "type" = Some (VJson (or_default (dict_get "type" m) (JStr "Unknown"))).
Proof.
  set (ty := or_default (dict_get "type" m) (JStr "Unknown")).
  destruct (py_eqeq ty (JStr "FeatureCollection")) eqn:Hfc.
  - apply py_eqeq_str in Hfc. rewrite Hfc.
    apply or_default_type in Hfc; [|done].
    intros (t & _ & ->)%analyze_collection_ret; done.
  - destruct (py_eqeq ty (JStr "Feature")) eqn:Hf.
    + apply py_eqeq_str in Hf. rewrite Hf.
      apply or_default_type in Hf; [|done].
      intros (_ & _ & ->)%analyze_feature_ret; [|done].
      by destruct (dict_get "properties" m) as [[| | | | | |[]]|].
    + apply py_eqeq_str_false in Hfc, Hf.
      rewrite (analyze_other m Hfc Hf). fold ty.
      destruct (in_strings ty geometry_names); by intros [= <-].
Qed.

Lemma well_shaped_returns (m : list (string * json)) :
  well_shaped (JObj m) = true -> exists r, analyze_geojson (JObj m) = Ret r.
Proof.
  cbn [well_shaped]. cbn zeta.
  set (ty := or_default (dict_get "type" m) (JStr "Unknown")).
  destruct (py_eqeq ty (JStr "FeatureCollection")) eqn:Hfc.
  - apply py_eqeq_str, or_default_type in Hfc; [|done].
    intros [? ?]%andb_true_iff. by apply analyze_collection_ok.
  - destruct (py_eqeq ty (JStr "Feature")) eqn:Hf.
    + apply py_eqeq_str, or_default_type in Hf; [|done].
      intros [? ?]%andb_true_iff. by apply analyze_feature_ok.
    + apply py_eqeq_str_false in Hfc, Hf. intros _.
      rewrite (analyze_other m Hfc Hf). by eexists.
Qed.

(** C1, as amended: on every JSON object whose fields have the kinds
    [analyze_geojson] reads them with -- which covers the empty object and
    every object whose [type] is neither ["FeatureCollection"] nor
    ["Feature"] -- the analysis succeeds, and the report's [type] field is
    present, set to the document's [type] value, or to ["Unknown"] when the
    document has none. *)
Theorem analyze_type_field (m : list (string * json)) :
  well_shaped (JObj m) = true ->
  exists r, analyze_geojson (JObj m) = Ret r /\
    r !! "type" = Some (VJson (or_default (dict_get "type" m) (JStr "Unknown"))).
Proof.
  intros (r & Hr)%well_shaped_returns. exists r. split; [done|].
  by apply analyze_ret_type.
Qed.

Lemma analyze_type_field_witness :
  well_shaped (JObj []) = true /\
  exists r, analyze_geojson (JObj []) = Ret r /\
    r !! "type" = Some (VJson (JStr "Unknown")).
Proof.
  split; [reflexivity | apply (analyze_type_field []); reflexivity].
Defined.

(** C1 fails as stated: on an array, a string or a number the first field
    access of [analyze_geojson] raises [AttributeError], and no report is
    returned. *)
Lemma analyze_non_object_raises :
  analyze_geojson (JArr []) = Raise AttributeError /\
  analyze_geojson (JStr "Point") = Raise AttributeError /\
  analyze_geojson (JInt 7) = Raise AttributeError.
Proof. by split_and!. Qed.

(** ** Validation *)

(** C2: an object without a [type] field, or whose [type] is not one of
    the nine recognized strings, is reported invalid. *)
Theorem validate_unrecognized_type (m : list (string * json)) :
  (forall s, In s geojson_types -> dict_get "type" m <> Some (JStr s)) ->
  exists msg, validate_geojson (JObj m) = Ret (false, msg).
Proof.
  intros H. destruct (validate_verdict m) as [msg Hmsg].
  exists msg. rewrite Hmsg. do 2 f_equal.
  unfold verdict, schema_accepts.
  destruct (dict_get "type" m) as [v|]; [|done].
  destruct (in_strings v geojson_types) eqn:Hin; [|done].
  apply in_strings_true in Hin as (s & -> & Hs). by destruct (H s Hs).
Qed.

Lemma validate_unrecognized_type_witness :
  (forall s, In s geojson_types ->
     dict_get "type" [("type", JStr "Circle")] <> Some (JStr s)) /\
  exists msg, validate_geojson (JObj [("type", JStr "Circle")]) = Ret (false, msg).
Proof.
  assert (H : forall s, In s geojson_types ->
                dict_get "type" [("type", JStr "Circle")] <> Some (JStr s)).
  { intros s Hs. cbn in Hs. cbn. intros [= <-]. intuition discriminate. }
  split; [exact H | exact (validate_unrecognized_type _ H)].
Defined.

Lemma schema_accepts_recognized (m : list (string * json)) (s : string) :
  dict_get "type" m = Some (JStr s) -> In s geojson_types ->
  schema_accepts m = fields_typed m.
Proof.
  intros Hty Hs. unfold schema_accepts. rewrite Hty.
  assert (in_strings (JStr s) geojson_types = true) as -> by (apply in_strings_true; eauto).
  done.
Qed.

(** C3, as amended: a FeatureCollection is valid exactly when [features]
    is present and each of [features], [geometry], [properties] and
    [coordinates] that is present has the kind the schema gives it (array,
    object, object, array); a Feature is valid exactly when [geometry] is
    present and the same fields have their kinds.  In particular both are
    invalid when the required field is absent. *)
Theorem validate_required_field (m : list (string * json)) :
  (dict_get "type" m = Some (JStr "FeatureCollection") ->
   exists msg, validate_geojson (JObj m) =
               Ret (dict_mem "features" m && fields_typed m, msg)) /\
  (dict_get "type" m = Some (JStr "Feature") ->
   exists msg, validate_geojson (JObj m) =
               Ret (dict_mem "geometry" m && fields_typed m, msg)).
Proof.
  destruct (validate_verdict m) as [msg Hmsg].
  split; intros Hty; exists msg; rewrite Hmsg; do 2 f_equal; unfold verdict;
    rewrite (type_of_get _ _ Hty);
    rewrite (schema_accepts_recognized m _ Hty) by (cbn; tauto).
  - rewrite (proj2 (py_eqeq_str _ _) eq_refl).
    assert (py_eqeq (JStr "FeatureCollection") (JStr "Feature") = false) as ->
      by (by apply py_eqeq_str_false).
    destruct (dict_mem "features" m), (fields_typed m); reflexivity.
  - rewrite (proj2 (py_eqeq_str _ _) eq_refl).
    assert (py_eqeq (JStr "Feature") (JStr "FeatureCollection") = false) as ->
      by (by apply py_eqeq_str_false).
    destruct (dict_mem "geometry" m), (fields_typed m); reflexivity.
Qed.

Lemma validate_required_field_witness :
  (exists msg, validate_geojson (JObj [("type", JStr "FeatureCollection")])
               = Ret (false, msg)) /\
  (exists msg, validate_geojson
                 (JObj [("type", JStr "FeatureCollection"); ("features", JArr [])])
               = Ret (true, msg)) /\
  (exists msg, validate_geojson (JObj [("type", JStr "Feature")])
               = Ret (false, msg)) /\
  (exists msg, validate_geojson
                 (JObj [("type", JStr "Feature");
                        ("geometry", JObj [("type", JStr "Point");
                                           ("coordinates", JArr [JInt 0; JInt 0])])])
               = Ret (true, msg)).
Proof.
  split_and!.
  - exact (proj1 (validate_required_field [("type", JStr "FeatureCollection")]) eq_refl).
  - exact (proj1 (validate_required_field
                    [("type", JStr "FeatureCollection"); ("features", JArr [])]) eq_refl).
  - exact (proj2 (validate_required_field [("type", JStr "Feature")]) eq_refl).
  - exact (proj2 (validate_required_field
                    [("type", JStr "Feature");
                     ("geometry", JObj [("type", JStr "Point");
                                        ("coordinates", JArr [JInt 0; JInt 0])])])
                 eq_refl).
Defined.

(** C3 fails as stated: with [features] present a FeatureCollection is
    still invalid when [features] is not an array, or when another field of
    the schema has the wrong kind; likewise a Feature with a [geometry]
    object. *)
Lemma validate_present_yet_invalid :
  (exists msg, validate_geojson
     (JObj [("type", JStr "FeatureCollection"); ("features", JInt 5)])
     = Ret (false, msg)) /\
  (exists msg, validate_geojson
     (JObj [("type", JStr "FeatureCollection"); ("features", JArr []);
            ("properties", JStr "x")])
     = Ret (false, msg)) /\
  (exists msg, validate_geojson
     (JObj [("type", JStr "Feature"); ("geometry", JObj []);
            ("properties", JArr [])])
     = Ret (false, msg)).
Proof. split_and!; by eexists. Qed.

(** C4: [validate_geojson] never raises.  Whatever the [try] block does,
    the caller gets a pair; when the block raises, the flag is [false] and
    a message comes with it. *)
Theorem validate_never_raises (d : json) :
  exists b msg, validate_geojson d = Ret (b, msg) /\
    match validate_body d with
    | Ret r => r = (b, msg)
    | Raise e => b = false
    end.
Proof.
  unfold validate_geojson.
  destruct (validate_body d) as [[b msg]|e].
  - by exists b, msg.
  - destruct e; by eexists _, _.
Qed.

(** ** The analysis of a FeatureCollection *)

Lemma bump_none (n : nat) :
  bump None n = match n with O => None | S _ => Some (Z.of_nat n) end.
Proof. by destruct n. Qed.

Lemma tally_wf_nil : tally_wf [].
Proof. split; constructor. Qed.

(** C5, as amended: for a FeatureCollection whose [features] is absent or
    an array of objects, each with [geometry] absent or an object, a
    hashable geometry type, and [properties] absent, falsy or an object,
    the report's [feature_count] is the number of features and its
    [geometry_types] is the mapping that holds, for every key, the number
    of features whose [geometry.type] is that key (no entry when there is
    none), a feature without [geometry] or without [geometry.type] counting
    under ["Unknown"]; two features of geometry type ["Point"] give
    [{"Point": 2}] and a count of 2. *)
Theorem analyze_feature_collection (m : list (string * json)) :
  dict_get "type" m = Some (JStr "FeatureCollection") ->
  features_readable m = true ->
  forallb countable_feature (collection_features (JObj m)) = true ->
  let fs := collection_features (JObj m) in
  exists r t,
    analyze_geojson (JObj m) = Ret r /\
    r !! "feature_count" = Some (VInt (Z.of_nat (length fs))) /\
    r !! "geometry_types" = Some (VTally t) /\
    tally_wf t /\
    (forall hk, tally_find hk t =
                match occurrences hk fs with
                | O => None
                | S _ => Some (Z.of_nat (occurrences hk fs))
                end) /\
    (forall fm, dict_get "geometry" fm = None ->
                geometry_type_of (JObj fm) = JStr "Unknown") /\
    (forall fm gm, dict_get "geometry" fm = Some (JObj gm) ->
                   dict_get "type" gm = None ->
                   geometry_type_of (JObj fm) = JStr "Unknown") /\
    (forall f1 f2, fs = [f1; f2] ->
                   geometry_type_of f1 = JStr "Point" ->
                   geometry_type_of f2 = JStr "Point" ->
                   t = [(JStr "Point", 2%Z)]).
Proof.
  intros Hty Hf Hall fs.
  destruct (analyze_collection_ok m Hty Hf Hall) as [r Hr].
  destruct (analyze_collection_ret m r Hty Hr) as (t & Hloop & ->).
  fold fs in Hloop, Hall |- *.
  destruct (count_all_ret _ _ _ _ _ Hloop) as (_ & _ & Hwf & Hfind).
  eexists; exists t. split; [exact Hr|].
  split; [reflexivity|]. split; [reflexivity|]. split_and!.
  - apply Hwf, tally_wf_nil.
  - intros hk. rewrite Hfind. cbn [tally_find]. apply bump_none.
  - intros fm Hg. cbn. by rewrite Hg.
  - intros fm gm Hg Ht. cbn. rewrite Hg. cbn. by rewrite Ht.
  - intros f1 f2 Hfs H1 H2. rewrite Hfs in Hloop, Hall.
    cbn [forallb] in Hall. apply andb_true_iff in Hall as [Hc1 Hall].
    apply andb_true_iff in Hall as [Hc2 _].
    cbn [for_each] in Hloop.
    destruct (count_feature_countable f1 [] ∅ Hc1) as (hk1 & Hk1 & E1).
    rewrite E1 in Hloop. cbn [bind] in Hloop.
    destruct (count_feature_countable f2
                (tally_store hk1 (geometry_type_of f1)
                   (match tally_find hk1 [] with Some z => z | None => 0 end + 1) [])
                (∅ ∪ list_to_set (feature_keys f1)) Hc2) as (hk2 & Hk2 & E2).
    rewrite E2 in Hloop. cbn [bind] in Hloop.
    rewrite H1 in Hk1, Hloop. rewrite H2 in Hk2, Hloop.
    cbn in Hk1, Hk2. injection Hk1 as <-. injection Hk2 as <-.
    injection Hloop as <- _. reflexivity.
Qed.

Lemma analyze_feature_collection_witness :
  dict_get "type" two_points = Some (JStr "FeatureCollection") /\
  features_readable two_points = true /\
  forallb countable_feature (collection_features (JObj two_points)) = true /\
  exists r t,
    analyze_geojson (JObj two_points) = Ret r /\
    r !! "feature_count" = Some (VInt 2) /\
    r !! "geometry_types" = Some (VTally t) /\
    t = [(JStr "Point", 2%Z)].
Proof.
  split; [reflexivity|]. split; [reflexivity|]. split; [reflexivity|].
  destruct (analyze_feature_collection two_points eq_refl eq_refl eq_refl)
    as (r & t & Hr & Hn & Hg & _ & _ & _ & _ & Hpoints).
  exists r, t. split_and!; [exact Hr | exact Hn | exact Hg |].
  exact (Hpoints _ _ eq_refl eq_refl eq_refl).
Defined.

(** C5 fails as stated: a FeatureCollection one of whose features is not
    an object, or has a [geometry] that is not an object, makes
    [analyze_geojson] raise instead of counting it under ["Unknown"]. *)
Lemma analyze_collection_raises :
  analyze_geojson
    (JObj [("type", JStr "FeatureCollection"); ("features", JArr [JInt 7])])
  = Raise AttributeError /\
  analyze_geojson
    (JObj [("type", JStr "FeatureCollection");
           ("features", JArr [JObj [("type", JStr "Feature");
                                    ("geometry", JStr "none")]])])
  = Raise AttributeError.
Proof. by split. Qed.

(** ** Presence of the property keys *)

(** C6, as amended: in the report of a FeatureCollection [property_keys]
    is always present and lists the union of the keys of the features'
    [properties] objects -- the empty list when no feature has any; in the
    report of a Feature it is present exactly when [properties] is a
    non-empty object, and lists its keys; for every other [type] it is
    absent. *)
Theorem property_keys_presence (m : list (string * json)) (r : report) :
  analyze_geojson (JObj m) = Ret r ->
  let ty := or_default (dict_get "type" m) (JStr "Unknown") in
  r !! "property_keys" =
  if py_eqeq ty (JStr "FeatureCollection") then
    Some (VKeys (elements (property_universe (collection_features (JObj m)))))
  else if py_eqeq ty (JStr "Feature") then
    match dict_get "properties" m with
    | Some (JObj (p :: pm)) => Some (VKeys (dict_keys (p :: pm)))
    | _ => None
    end
  else None.
Proof.
  intros Hr ty.
  destruct (py_eqeq ty (JStr "FeatureCollection")) eqn:Hfc.
  - apply py_eqeq_str, or_default_type in Hfc; [|done].
    by destruct (analyze_collection_ret m r Hfc Hr) as (t & _ & ->).
  - destruct (py_eqeq ty (JStr "Feature")) eqn:Hf.
    + apply py_eqeq_str, or_default_type in Hf; [|done].
      destruct (analyze_feature_ret m r Hf Hr) as (_ & _ & ->).
      by destruct (dict_get "properties" m) as [[| | | | | |[]]|].
    + apply py_eqeq_str_false in Hfc, Hf.
      rewrite (analyze_other m Hfc Hf) in Hr. fold ty in Hr.
      destruct (in_strings ty geometry_names); by injection Hr as <-.
Qed.

Lemma property_keys_presence_witness :
  analyze_geojson (JObj two_points) = Ret two_points_report /\
  two_points_report !! "property_keys" =
  Some (VKeys (elements (property_universe (collection_features (JObj two_points))))).
Proof.
  assert (H : analyze_geojson (JObj two_points) = Ret two_points_report)
    by (vm_compute; reflexivity).
  split; [exact H | exact (property_keys_presence two_points _ H)].
Defined.

(** C6 fails as stated: the report of a FeatureCollection without any
    feature, hence without any properties, still has [property_keys]. *)
Lemma property_keys_without_properties :
  exists r,
    analyze_geojson (JObj [("type", JStr "FeatureCollection"); ("features", JArr [])])
    = Ret r /\
    r !! "property_keys" = Some (VKeys []).
Proof. eexists. split; [reflexivity|]. by vm_compute. Qed.

(** ** Comparison *)

(** C7, as amended: for two JSON objects one of which is not a
    FeatureCollection, the comparison report holds the field
    [different_types] and nothing else; the counts and the key lists are
    absent.  On two string types the flag is string inequality. *)
Theorem compare_different_types_only (a b : list (string * json)) :
  type_of a <> JStr "FeatureCollection" \/ type_of b <> JStr "FeatureCollection" ->
  exists r,
    compare_geojson (JObj a) (JObj b) = Ret r /\
    r = {["different_types" := VBool (py_ne (type_of a) (type_of b))]} /\
    r !! "feature_count_1" = None /\ r !! "feature_count_2" = None /\
    r !! "feature_count_diff" = None /\ r !! "unique_keys_1" = None /\
    r !! "unique_keys_2" = None /\ r !! "common_keys" = None /\
    (forall s t, type_of a = JStr s -> type_of b = JStr t ->
                 py_ne (type_of a) (type_of b) = negb (String.eqb s t)).
Proof.
  intros H. eexists. split; [by apply compare_other|].
  split_and!; try done.
  intros s t -> ->. unfold py_ne. f_equal.
  destruct (String.eqb s t) eqn:Heq.
  - apply String.eqb_eq in Heq as ->. by apply py_eqeq_str.
  - apply py_eqeq_str_false. intros [= ->]. by rewrite String.eqb_refl in Heq.
Qed.

Lemma compare_different_types_only_witness :
  (type_of [("type", JStr "FeatureCollection"); ("features", JArr [])]
     <> JStr "FeatureCollection"
   \/ type_of [("type", JStr "Feature")] <> JStr "FeatureCollection") /\
  exists r,
    compare_geojson
      (JObj [("type", JStr "FeatureCollection"); ("features", JArr [])])
      (JObj [("type", JStr "Feature")]) = Ret r /\
    r !! "different_types" = Some (VBool true) /\
    r !! "feature_count_diff" = None /\ r !! "common_keys" = None.
Proof.
  assert (H : type_of [("type", JStr "FeatureCollection"); ("features", JArr [])]
                <> JStr "FeatureCollection"
              \/ type_of [("type", JStr "Feature")] <> JStr "FeatureCollection")
    by (right; discriminate).
  split; [exact H|].
  destruct (compare_different_types_only _ _ H)
    as (r & Hr & Heq & _ & _ & Hd & _ & _ & Hc & _).
  exists r. split_and!; [exact Hr | | exact Hd | exact Hc].
  rewrite Heq. reflexivity.
Defined.

(** C7 fails as stated: when a side is not an object at all -- so
    certainly not a FeatureCollection -- the first field access of
    [compare_geojson] raises [AttributeError] and there is no report. *)
Lemma compare_non_object_raises :
  compare_geojson (JArr []) (JObj [("type", JStr "Feature")])
  = Raise AttributeError /\
  compare_geojson (JObj [("type", JStr "Feature")]) (JStr "Point")
  = Raise AttributeError.
Proof. by split. Qed.

Lemma valid_features_readable (m : list (string * json)) (msg : message) :
  validate_geojson (JObj m) = Ret (true, msg) -> features_readable m = true.
Proof.
  destruct (validate_verdict m) as [msg' ->]. intros [= Hv _].
  unfold verdict in Hv. apply andb_true_iff in Hv as [Hv _].
  apply andb_true_iff in Hv as [Hv _].
  unfold schema_accepts in Hv. apply andb_true_iff in Hv as [_ Hv].
  unfold fields_typed in Hv. do 3 apply andb_true_iff in Hv as [Hv _].
  unfold field_is in Hv. unfold features_readable.
  by destruct (dict_get "features" m) as [[]|].
Qed.

(** C8, as amended: for a FeatureCollection that [validate_geojson]
    accepts and whose features are objects with [properties] absent, falsy
    or an object, comparing it with itself reports equal types, a count
    difference of 0, no unique key on either side, and as common keys
    exactly the property keys occurring in its features. *)
Theorem compare_with_itself (m : list (string * json)) (msg : message) :
  validate_geojson (JObj m) = Ret (true, msg) ->
  dict_get "type" m = Some (JStr "FeatureCollection") ->
  forallb plain_feature (collection_features (JObj m)) = true ->
  exists r c,
    compare_geojson (JObj m) (JObj m) = Ret r /\
    r !! "different_types" = Some (VBool false) /\
    r !! "feature_count_diff" = Some (VInt 0) /\
    r !! "unique_keys_1" = Some (VKeys []) /\
    r !! "unique_keys_2" = Some (VKeys []) /\
    r !! "common_keys" = Some (VKeys c) /\
    NoDup c /\
    list_to_set c = property_universe (collection_features (JObj m)).
Proof.
  intros Hv Hty Hplain.
  pose proof (valid_features_readable m msg Hv) as Hf.
  destruct (compare_collections_ok m m Hty Hty Hf Hf Hplain Hplain) as [r Hr].
  destruct (compare_collections_ret m m r Hty Hty Hr) as (n1 & n2 & H1 & H2 & ->).
  assert (n2 = n1) as -> by congruence.
  assert (Hdiff : forall k : gset string, k ∖ k = ∅) by set_solver.
  assert (Hint : forall k : gset string, k ∩ k = k) by set_solver.
  rewrite Z.sub_diag, Hdiff, elements_empty, Hint in Hr.
  eexists _, _. split; [exact Hr|]. split_and!; try reflexivity.
  - apply NoDup_elements.
  - apply list_to_set_elements_L.
Qed.

Lemma compare_with_itself_witness :
  validate_geojson (JObj sample_pairs1) = Ret (true, Msg "Valid GeoJSON") /\
  dict_get "type" sample_pairs1 = Some (JStr "FeatureCollection") /\
  forallb plain_feature (collection_features (JObj sample_pairs1)) = true /\
  exists r c,
    compare_geojson (JObj sample_pairs1) (JObj sample_pairs1) = Ret r /\
    r !! "different_types" = Some (VBool false) /\
    r !! "feature_count_diff" = Some (VInt 0) /\
    r !! "unique_keys_1" = Some (VKeys []) /\
    r !! "unique_keys_2" = Some (VKeys []) /\
    r !! "common_keys" = Some (VKeys c) /\
    NoDup c /\
    list_to_set c = property_universe (collection_features (JObj sample_pairs1)).
Proof.
  assert (H1 : validate_geojson (JObj sample_pairs1) = Ret (true, Msg "Valid GeoJSON"))
    by (vm_compute; reflexivity).
  assert (H2 : dict_get "type" sample_pairs1 = Some (JStr "FeatureCollection"))
    by (vm_compute; reflexivity).
  assert (H3 : forallb plain_feature (collection_features (JObj sample_pairs1)) = true)
    by (vm_compute; reflexivity).
  split; [exact H1|]. split; [exact H2|]. split; [exact H3|].
  exact (compare_with_itself sample_pairs1 (Msg "Valid GeoJSON") H1 H2 H3).
Defined.

(** C8 fails as stated: a FeatureCollection that [validate_geojson]
    accepts can hold a feature that is not an object, and comparing it with
    itself raises [TypeError]. *)
Lemma compare_valid_collection_raises :
  validate_geojson
    (JObj [("type", JStr "FeatureCollection"); ("features", JArr [JInt 5])])
  = Ret (true, Msg "Valid GeoJSON") /\
  compare_geojson
    (JObj [("type", JStr "FeatureCollection"); ("features", JArr [JInt 5])])
    (JObj [("type", JStr "FeatureCollection"); ("features", JArr [JInt 5])])
  = Raise TypeError.
Proof. by split. Qed.

Lemma collection_features_get (m : list (string * json)) (fs : list json) :
  dict_get "features" m = Some (JArr fs) -> collection_features (JObj m) = fs.
Proof. cbn. by intros ->. Qed.

(** C9: two FeatureCollections whose [features] are permutations of each
    other are analyzed alike: when one analysis returns so does the other,
    and both reports hold the same [property_keys], a duplicate-free list
    of the property keys occurring in the features. *)
Theorem property_keys_permutation
    (m m' : list (string * json)) (fs fs' : list json) (r : report) :
  dict_get "type" m = Some (JStr "FeatureCollection") ->
  dict_get "features" m = Some (JArr fs) ->
  dict_get "type" m' = Some (JStr "FeatureCollection") ->
  dict_get "features" m' = Some (JArr fs') ->
  Permutation fs fs' ->
  analyze_geojson (JObj m) = Ret r ->
  exists r' l,
    analyze_geojson (JObj m') = Ret r' /\
    r !! "property_keys" = Some (VKeys l) /\
    r' !! "property_keys" = Some (VKeys l) /\
    NoDup l /\
    list_to_set l = property_universe fs /\
    list_to_set l = property_universe fs'.
Proof.
  intros Hty Hfs Hty' Hfs' Hperm Hr.
  destruct (analyze_collection_ret m r Hty Hr) as (t & Hloop & ->).
  apply count_all_ret in Hloop as (Hall & _).
  rewrite (collection_features_get _ _ Hfs) in *.
  rewrite (forallb_perm _ _ _ Hperm) in Hall.
  assert (Hf' : features_readable m' = true)
    by (unfold features_readable; by rewrite Hfs').
  rewrite <- (collection_features_get _ _ Hfs') in Hall.
  destruct (analyze_collection_ok m' Hty' Hf' Hall) as [r' Hr'].
  destruct (analyze_collection_ret m' r' Hty' Hr') as (t' & _ & ->).
  rewrite (collection_features_get _ _ Hfs') in *.
  rewrite <- (property_universe_perm _ _ Hperm) in *.
  eexists _, _. split; [exact Hr'|]. split_and!; try reflexivity.
  - apply NoDup_elements.
  - apply list_to_set_elements_L.
  - apply list_to_set_elements_L.
Qed.

Lemma property_keys_permutation_witness :
  Permutation [point_a; point_b] [point_b; point_a] /\
  exists r r' l,
    analyze_geojson (JObj two_points) = Ret r /\
    analyze_geojson (JObj two_points_swapped) = Ret r' /\
    r !! "property_keys" = Some (VKeys l) /\
    r' !! "property_keys" = Some (VKeys l).
Proof.
  assert (Hp : Permutation [point_a; point_b] [point_b; point_a]) by apply perm_swap.
  split; [exact Hp|].
  assert (Hr : analyze_geojson (JObj two_points) = Ret two_points_report)
    by (vm_compute; reflexivity).
  destruct (property_keys_permutation two_points two_points_swapped
              [point_a; point_b] [point_b; point_a] two_points_report
              eq_refl eq_refl eq_refl eq_refl Hp Hr)
    as (r' & l & Hr' & K1 & K2 & _).
  exists two_points_report, r', l.
  split_and!; [exact Hr | exact Hr' | exact K1 | exact K2].
Defined.

(** C10: when both objects are FeatureCollections, the three key lists of
    the comparison report are pairwise disjoint, the unique keys of a side
    together with the common keys are the property keys of that side's
    features, and no list repeats a key. *)
Theorem compare_keys_partition (a b : list (string * json)) (r : report) :
  dict_get "type" a = Some (JStr "FeatureCollection") ->
  dict_get "type" b = Some (JStr "FeatureCollection") ->
  compare_geojson (JObj a) (JObj b) = Ret r ->
  exists u1 u2 c : list string,
    r !! "unique_keys_1" = Some (VKeys u1) /\
    r !! "unique_keys_2" = Some (VKeys u2) /\
    r !! "common_keys" = Some (VKeys c) /\
    NoDup u1 /\ NoDup u2 /\ NoDup c /\
    (forall k, k ∈ u1 -> k ∉ u2) /\
    (forall k, k ∈ u1 -> k ∉ c) /\
    (forall k, k ∈ u2 -> k ∉ c) /\
    (list_to_set u1 ∪ list_to_set c : gset string)
      = property_universe (collection_features (JObj a)) /\
    (list_to_set u2 ∪ list_to_set c : gset string)
      = property_universe (collection_features (JObj b)).
Proof.
  intros Ha Hb Hr.
  destruct (compare_collections_ret a b r Ha Hb Hr) as (n1 & n2 & _ & _ & ->).
  set (k1 := property_universe (collection_features (JObj a))).
  set (k2 := property_universe (collection_features (JObj b))).
  eexists _, _, _. split; [reflexivity|]. split; [reflexivity|].
  split; [reflexivity|].
  split_and!; try apply NoDup_elements.
  - intros k. rewrite !elem_of_elements. set_solver.
  - intros k. rewrite !elem_of_elements. set_solver.
  - intros k. rewrite !elem_of_elements. set_solver.
  - rewrite !list_to_set_elements_L. apply set_eq. intros k.
    rewrite elem_of_union, elem_of_difference, elem_of_intersection.
    destruct (decide (k ∈ k2)); tauto.
  - rewrite !list_to_set_elements_L. apply set_eq. intros k.
    rewrite elem_of_union, elem_of_difference, elem_of_intersection.
    destruct (decide (k ∈ k1)); tauto.
Qed.

Lemma compare_keys_partition_witness :
  dict_get "type" sample_pairs1 = Some (JStr "FeatureCollection") /\
  dict_get "type" sample_pairs2 = Some (JStr "FeatureCollection") /\
  exists r u1 u2 c,
    compare_geojson (JObj sample_pairs1) (JObj sample_pairs2) = Ret r /\
    r !! "unique_keys_1" = Some (VKeys u1) /\
    r !! "unique_keys_2" = Some (VKeys u2) /\
    r !! "common_keys" = Some (VKeys c) /\
    (list_to_set u1 ∪ list_to_set c : gset string)
      = property_universe (collection_features (JObj sample_pairs1)) /\
    (list_to_set u2 ∪ list_to_set c : gset string)
      = property_universe (collection_features (JObj sample_pairs2)).
Proof.
  assert (H1 : dict_get "type" sample_pairs1 = Some (JStr "FeatureCollection"))
    by (vm_compute; reflexivity).
  assert (H2 : dict_get "type" sample_pairs2 = Some (JStr "FeatureCollection"))
    by (vm_compute; reflexivity).
  split; [exact H1|]. split; [exact H2|].
  destruct (compare_collections_ok sample_pairs1 sample_pairs2 H1 H2)
    as [r Hr]; try (vm_compute; reflexivity).
  destruct (compare_keys_partition sample_pairs1 sample_pairs2 r H1 H2 Hr)
    as (u1 & u2 & c & K1 & K2 & K3 & _ & _ & _ & _ & _ & _ & K4 & K5).
  exists r, u1, u2, c.
  split_and!; [exact Hr | exact K1 | exact K2 | exact K3 | exact K4 | exact K5].
Defined.

(** * Further properties of the three functions *)

(** ** validate_geojson *)

(** X1: a value that is not an object is reported invalid. *)
Theorem validate_rejects_non_object (d : json) :
  is_object d = false ->
  exists msg, validate_geojson d = Ret (false, msg).
Proof. destruct d; try discriminate; intros _; by eexists. Qed.

Lemma validate_rejects_non_object_witness :
  is_object (JArr [JInt 1]) = false /\
  exists msg, validate_geojson (JArr [JInt 1]) = Ret (false, msg).
Proof.
  split; [reflexivity | apply (validate_rejects_non_object (JArr [JInt 1])); reflexivity].
Defined.

Lemma verdict_true (m : list (string * json)) :
  verdict m = true <->
  exists s, dict_get "type" m = Some (JStr s) /\ In s geojson_types /\
    fields_typed m = true /\
    (s = "FeatureCollection" -> dict_mem "features" m = true) /\
    (s = "Feature" -> dict_mem "geometry" m = true).
Proof.
  unfold verdict, schema_accepts, type_of.
  destruct (dict_get "type" m) as [v|] eqn:Hty; cbn [or_default andb].
  2: { split; [discriminate | by intros (s & [=] & _)]. }
  split.
  - intros [[[Hs Hf]%andb_true_iff H1]%andb_true_iff H2]%andb_true_iff.
    apply in_strings_true in Hs as (s & -> & Hin).
    exists s. split_and!; try done.
    + intros ->. rewrite (proj2 (py_eqeq_str _ _) eq_refl) in H1.
      by destruct (dict_mem "features" m).
    + intros ->. rewrite (proj2 (py_eqeq_str _ _) eq_refl) in H2.
      by destruct (dict_mem "geometry" m).
  - intros (s & [= ->] & Hin & Hf & H1 & H2).
    assert (in_strings (JStr s) geojson_types = true) as ->
      by (apply in_strings_true; eauto).
    rewrite Hf. cbn [andb].
    apply andb_true_iff. split; apply negb_true_iff, andb_false_iff.
    + destruct (py_eqeq (JStr s) (JStr "FeatureCollection")) eqn:E; [|by left].
      apply py_eqeq_str in E as [= ->]. right. by rewrite H1.
    + destruct (py_eqeq (JStr s) (JStr "Feature")) eqn:E; [|by left].
      apply py_eqeq_str in E as [= ->]. right. by rewrite H2.
Qed.

(** X2: a value is reported valid exactly when it is an object whose
    [type] is one of the nine recognized strings, whose [features],
    [geometry], [properties] and [coordinates], where present, are an
    array, an object, an object and an array, and which has [features] if
    it is a FeatureCollection and [geometry] if it is a Feature; the
    message is then ["Valid GeoJSON"]. *)
Theorem validate_accepts_iff (d : json) :
  ((exists msg, validate_geojson d = Ret (true, msg)) <->
   exists m s, d = JObj m /\ dict_get "type" m = Some (JStr s) /\
     In s geojson_types /\ fields_typed m = true /\
     (s = "FeatureCollection" -> dict_mem "features" m = true) /\
     (s = "Feature" -> dict_mem "geometry" m = true)) /\
  (forall msg, validate_geojson d = Ret (true, msg) -> msg = Msg "Valid GeoJSON").
Proof.
  split.
  - split.
    + intros [msg Hv]. destruct d as [| | | | | |m]; try discriminate.
      destruct (validate_verdict m) as [msg' Hm]. rewrite Hm in Hv.
      injection Hv as Hv _. apply verdict_true in Hv as (s & ?). by exists m, s.
    + intros (m & s & -> & H). destruct (validate_verdict m) as [msg Hm].
      exists msg. rewrite Hm. do 2 f_equal. apply verdict_true. by exists s.
  - intros msg Hv. destruct d as [| | | | | |m]; try discriminate.
    by apply validate_valid_message in Hv.
Qed.

Lemma validate_accepts_iff_witness :
  exists msg, validate_geojson (JObj point_doc) = Ret (true, msg).
Proof.
  apply (proj2 (proj1 (validate_accepts_iff (JObj point_doc)))).
  exists point_doc, "Point". split_and!; try reflexivity.
  - cbn. tauto.
  - discriminate.
  - discriminate.
Defined.

(** X4: when the schema is satisfied, a FeatureCollection without
    [features] and a Feature without [geometry] are rejected with their
    own fixed messages. *)
Theorem validate_missing_field_message (m : list (string * json)) :
  fields_typed m = true ->
  (dict_get "type" m = Some (JStr "FeatureCollection") ->
   dict_get "features" m = None ->
   validate_geojson (JObj m)
   = Ret (false, Msg "FeatureCollection must have 'features' array")) /\
  (dict_get "type" m = Some (JStr "Feature") ->
   dict_get "geometry" m = None ->
   validate_geojson (JObj m)
   = Ret (false, Msg "Feature must have 'geometry' property")).
Proof.
  intros Hf. split; intros Hty Hnone; rewrite validate_object;
    (assert (iter_errors geojson_schema [] (JObj m) = []) as ->
       by (apply iter_errors_geojson;
           rewrite (schema_accepts_recognized m _ Hty) by (cbn; tauto); done));
    rewrite (type_of_get _ _ Hty); unfold dict_mem; rewrite Hnone.
  - by rewrite (proj2 (py_eqeq_str _ _) eq_refl).
  - assert (py_eqeq (JStr "Feature") (JStr "FeatureCollection") = false) as ->
      by (by apply py_eqeq_str_false).
    by rewrite (proj2 (py_eqeq_str _ _) eq_refl).
Qed.

Lemma validate_missing_field_message_witness :
  fields_typed [("type", JStr "FeatureCollection")] = true /\
  validate_geojson (JObj [("type", JStr "FeatureCollection")])
  = Ret (false, Msg "FeatureCollection must have 'features' array").
Proof.
  split; [reflexivity|].
  exact (proj1 (validate_missing_field_message
                  [("type", JStr "FeatureCollection")] eq_refl) eq_refl eq_refl).
Defined.

(** ** analyze_geojson *)

Lemma py_len_raises (x : json) (e : exn) : py_len x = Raise e -> e = TypeError.
Proof. destruct x; cbn; congruence. Qed.

Lemma py_iter_raises (x : json) (e : exn) : py_iter x = Raise e -> e = TypeError.
Proof. destruct x; cbn; congruence. Qed.

Lemma collect_keys_raises (f : json) (ks : gset string) (e : exn) :
  collect_keys f ks = Raise e -> e = AttributeError \/ e = TypeError.
Proof.
  destruct f as [|b|z|x|t|l|fm].
  1-4: (cbn; intros [= <-]; by right).
  - unfold collect_keys. cbn [py_contains bind].
    destruct (str_contains "properties" t); cbn; [|discriminate].
    intros [= <-]. by right.
  - unfold collect_keys. cbn [py_contains bind].
    destruct (existsb _ l); cbn; [|discriminate].
    intros [= <-]. by right.
  - rewrite collect_keys_object.
    destruct (readable_properties fm); [discriminate|].
    intros [= <-]. by left.
Qed.

Lemma count_feature_raises (f : json) (st : tally * gset string) (e : exn) :
  count_feature f st = Raise e -> e = AttributeError \/ e = TypeError.
Proof.
  destruct st as [t ks]. destruct f as [| | | | | |fm];
    try (cbn; intros [= <-]; by left).
  unfold count_feature. cbn [py_get bind].
  destruct (match dict_get "geometry" fm with Some v => v | None => JObj [] end)
    as [| | | | | |gm]; try (cbn; intros [= <-]; by left).
  cbn [py_get bind]. unfold tally_get, tally_set.
  destruct (hash_key _) as [hk|]; cbn [bind]; [|intros [= <-]; by right].
  rewrite collect_keys_object.
  destruct (readable_properties fm); cbn [bind]; [discriminate|].
  intros [= <-]. by left.
Qed.

Lemma for_each_raises {A S : Type} (P : exn -> Prop) (body : A -> S -> res S) :
  (forall x s e, body x s = Raise e -> P e) ->
  forall l s e, for_each body l s = Raise e -> P e.
Proof.
  intros Hbody l. induction l as [|x l IH]; intros s e; cbn [for_each]; [discriminate|].
  destruct (body x s) as [s'|e'] eqn:Hx; cbn [bind].
  - apply IH.
  - intros [= <-]. by apply (Hbody x s).
Qed.

(** X9: whatever goes wrong in [analyze_geojson] is an [AttributeError] or
    a [TypeError]; the subscript [x["properties"]] is guarded by the
    membership test before it and never raises [KeyError]. *)
Theorem analyze_raises_only (d : json) (e : exn) :
  analyze_geojson d = Raise e -> e = AttributeError \/ e = TypeError.
Proof.
  destruct d as [| | | | | |m]; try (cbn; intros [= <-]; by left).
  unfold analyze_geojson. cbn [py_get bind].
  destruct (py_eqeq _ (JStr "FeatureCollection")).
  - destruct (py_len _) as [n|e1] eqn:Hlen; cbn [bind];
      [|intros [= <-]; right; by apply py_len_raises in Hlen].
    destruct (py_iter _) as [items|e2] eqn:Hit; cbn [bind];
      [|intros [= <-]; right; by apply py_iter_raises in Hit].
    destruct (for_each count_feature items ([], ∅)) as [[t ks]|e3] eqn:Hloop;
      cbn [bind]; [discriminate|].
    intros [= <-].
    by apply (for_each_raises _ _ count_feature_raises _ _ _ Hloop).
  - destruct (py_eqeq _ (JStr "Feature")).
    + destruct (match dict_get "geometry" m with Some v => v | None => JObj [] end)
        as [| | | | | |gm]; try (cbn; intros [= <-]; by left).
      cbn [py_get bind py_contains py_getitem]. unfold dict_mem.
      destruct (dict_get "properties" m) as [p|]; cbn [bind]; [|discriminate].
      destruct (py_truthy p); cbn [bind]; [|discriminate].
      destruct p; cbn; try discriminate; intros [= <-]; by left.
    + destruct (in_strings _ geometry_names); discriminate.
Qed.

Lemma analyze_raises_only_witness :
  analyze_geojson
    (JObj [("type", JStr "FeatureCollection"); ("features", JInt 3)])
  = Raise TypeError /\
  (TypeError = AttributeError \/ TypeError = TypeError).
Proof.
  split; [reflexivity|].
  apply (analyze_raises_only
           (JObj [("type", JStr "FeatureCollection"); ("features", JInt 3)])).
  reflexivity.
Defined.

Lemma tally_total_store (hk : pykey) (key : json) (n : Z) (t : tally) :
  tally_total (tally_store hk key n t)
  = (tally_total t + n - match tally_find hk t with Some z => z | None => 0 end)%Z.
Proof.
  induction t as [|[k n'] t IH]; cbn [tally_store tally_find tally_total fold_right snd].
  - lia.
  - destruct (same_key hk k); cbn [tally_total fold_right snd].
    + fold (tally_total t). lia.
    + fold (tally_total (tally_store hk key n t)) (tally_total t). rewrite IH. lia.
Qed.

Lemma tally_positive_find (hk : pykey) (t : tally) :
  Forall (fun e => (1 <= snd e)%Z) t ->
  (0 <= match tally_find hk t with Some z => z | None => 0 end)%Z.
Proof.
  induction 1 as [|[k n] t Hn _ IH]; cbn [tally_find]; [lia|].
  destruct (same_key hk k); [cbn in Hn; lia | done].
Qed.

Lemma tally_positive_store (hk : pykey) (key : json) (n : Z) (t : tally) :
  (1 <= n)%Z ->
  Forall (fun e => (1 <= snd e)%Z) t ->
  Forall (fun e => (1 <= snd e)%Z) (tally_store hk key n t).
Proof.
  intros Hn. induction 1 as [|[k n'] t Hk Ht IH]; cbn [tally_store].
  - by repeat constructor.
  - destruct (same_key hk k); constructor; done.
Qed.

Lemma count_all_total (fs : list json) (t t' : tally) (ks ks' : gset string) :
  for_each count_feature fs (t, ks) = Ret (t', ks') ->
  Forall (fun e => (1 <= snd e)%Z) t ->
  tally_total t' = (tally_total t + Z.of_nat (length fs))%Z /\
  Forall (fun e => (1 <= snd e)%Z) t'.
Proof.
  revert t ks. induction fs as [|f fs IH]; intros t ks; cbn [for_each].
  - intros [= <- <-] Hpos. split; [cbn; lia | done].
  - destruct (countable_feature f) eqn:Hc.
    + destruct (count_feature_countable f t ks Hc) as (hk & Hhk & ->).
      cbn [bind]. intros Hloop Hpos.
      pose proof (tally_positive_find hk t Hpos) as Hfind.
      apply IH in Hloop as [Htot Hpos'].
      * split; [|done]. rewrite Htot, tally_total_store. cbn [length]. lia.
      * apply tally_positive_store; [lia | done].
    + destruct (count_feature_uncountable f (t, ks) Hc) as (e & ->). discriminate.
Qed.

(** X8: in the report of a FeatureCollection the counts of
    [geometry_types] are all at least 1 and add up to [feature_count]. *)
Theorem analyze_counts_add_up (m : list (string * json)) (r : report) :
  dict_get "type" m = Some (JStr "FeatureCollection") ->
  analyze_geojson (JObj m) = Ret r ->
  exists n t,
    r !! "feature_count" = Some (VInt n) /\
    r !! "geometry_types" = Some (VTally t) /\
    tally_total t = n /\
    Forall (fun e => (1 <= snd e)%Z) t.
Proof.
  intros Hty Hr.
  destruct (analyze_collection_ret m r Hty Hr) as (t & Hloop & ->).
  apply count_all_total in Hloop as [Htot Hpos]; [|constructor].
  eexists _, t. split; [reflexivity|]. split; [reflexivity|].
  split; [|done]. rewrite Htot. cbn. lia.
Qed.

Lemma analyze_counts_add_up_witness :
  dict_get "type" two_points = Some (JStr "FeatureCollection") /\
  analyze_geojson (JObj two_points) = Ret two_points_report /\
  exists n t,
    two_points_report !! "feature_count" = Some (VInt n) /\
    two_points_report !! "geometry_types" = Some (VTally t) /\
    tally_total t = n /\
    Forall (fun e => (1 <= snd e)%Z) t.
Proof.
  assert (H : analyze_geojson (JObj two_points) = Ret two_points_report)
    by (vm_compute; reflexivity).
  split; [reflexivity|]. split; [exact H|].
  exact (analyze_counts_add_up two_points two_points_report eq_refl H).
Defined.

(** X10: a FeatureCollection with a [features] array is analyzed exactly
    when every feature is an object with [geometry] absent or an object, a
    hashable geometry type, and [properties] absent, falsy or an object:
    one unreadable feature anywhere leaves the caller without a report. *)
Theorem analyze_collection_iff (m : list (string * json)) (fs : list json) :
  dict_get "type" m = Some (JStr "FeatureCollection") ->
  dict_get "features" m = Some (JArr fs) ->
  ((exists r, analyze_geojson (JObj m) = Ret r) <->
   forallb countable_feature fs = true).
Proof.
  intros Hty Hfs. rewrite <- (collection_features_get m fs Hfs). split.
  - intros [r Hr]. destruct (analyze_collection_ret m r Hty Hr) as (t & Hloop & _).
    by apply count_all_ret in Hloop as (Hall & _).
  - intros Hall. apply analyze_collection_ok; try done.
    unfold features_readable. by rewrite Hfs.
Qed.

Lemma analyze_collection_iff_witness :
  dict_get "type" two_points = Some (JStr "FeatureCollection") /\
  dict_get "features" two_points = Some (JArr [point_a; point_b]) /\
  ((exists r, analyze_geojson (JObj two_points) = Ret r) <->
   forallb countable_feature [point_a; point_b] = true).
Proof.
  split; [reflexivity|]. split; [reflexivity|].
  exact (analyze_collection_iff two_points [point_a; point_b] eq_refl eq_refl).
Defined.

(** X5: a Feature is analyzed exactly when its [geometry] is absent or an
    object and its [properties] is absent, falsy or an object; the report
    then gives as [geometry_type] the [type] of the geometry, or
    ["Unknown"] when the geometry or its [type] is absent, and has neither
    [feature_count] nor [geometry_types]. *)
Theorem analyze_feature (m : list (string * json)) :
  dict_get "type" m = Some (JStr "Feature") ->
  ((exists r, analyze_geojson (JObj m) = Ret r) <->
   readable_geometry m = true /\ readable_properties m = true) /\
  (forall r, analyze_geojson (JObj m) = Ret r ->
     r !! "geometry_type" = Some (VJson (geometry_type_of (JObj m))) /\
     r !! "feature_count" = None /\ r !! "geometry_types" = None) /\
  (dict_get "geometry" m = None -> geometry_type_of (JObj m) = JStr "Unknown") /\
  (forall gm, dict_get "geometry" m = Some (JObj gm) ->
     geometry_type_of (JObj m) = or_default (dict_get "type" gm) (JStr "Unknown")).
Proof.
  intros Hty. split_and!.
  - split.
    + intros [r Hr]. by destruct (analyze_feature_ret m r Hty Hr) as (? & ? & _).
    + intros [Hg Hp]. by apply analyze_feature_ok.
  - intros r Hr. destruct (analyze_feature_ret m r Hty Hr) as (_ & _ & ->).
    by destruct (dict_get "properties" m) as [[| | | | | |[]]|].
  - intros Hg. cbn. by rewrite Hg.
  - intros gm Hg. cbn. by rewrite Hg.
Qed.

Lemma analyze_feature_witness :
  dict_get "type" feature_doc = Some (JStr "Feature") /\
  exists r,
    analyze_geojson (JObj feature_doc) = Ret r /\
    r !! "geometry_type" = Some (VJson (JStr "Point")).
Proof.
  split; [reflexivity|].
  destruct (analyze_feature feature_doc eq_refl) as (Hiff & Hrep & _).
  destruct (proj2 Hiff (conj eq_refl eq_refl)) as [r Hr].
  exists r. split; [exact Hr|]. exact (proj1 (Hrep r Hr)).
Defined.

(** X6: on an object whose [type] is neither ["FeatureCollection"] nor
    ["Feature"] -- missing, unrecognized, or not even a string --
    [analyze_geojson] never raises and looks at nothing else: the report
    holds [type], and [geometry_type] with the same value when [type] is
    one of the seven geometry names, and no other field. *)
Theorem analyze_other_types (m : list (string * json)) :
  let ty := or_default (dict_get "type" m) (JStr "Unknown") in
  ty <> JStr "FeatureCollection" -> ty <> JStr "Feature" ->
  exists r,
    analyze_geojson (JObj m) = Ret r /\
    r !! "type" = Some (VJson ty) /\
    r !! "geometry_type" =
      (if in_strings ty geometry_names then Some (VJson ty) else None) /\
    dom r = (if in_strings ty geometry_names
             then {["type"; "geometry_type"]} else {["type"]}).
Proof.
  intros ty H1 H2. eexists. split; [by apply analyze_other|]. fold ty.
  destruct (in_strings ty geometry_names); split_and!; reflexivity.
Qed.

Lemma analyze_other_types_witness :
  or_default (dict_get "type" point_doc) (JStr "Unknown") <> JStr "FeatureCollection" /\
  or_default (dict_get "type" point_doc) (JStr "Unknown") <> JStr "Feature" /\
  exists r,
    analyze_geojson (JObj point_doc) = Ret r /\
    r !! "type" = Some (VJson (JStr "Point")) /\
    r !! "geometry_type" = Some (VJson (JStr "Point")).
Proof.
  assert (H1 : or_default (dict_get "type" point_doc) (JStr "Unknown")
               <> JStr "FeatureCollection") by discriminate.
  assert (H2 : or_default (dict_get "type" point_doc) (JStr "Unknown")
               <> JStr "Feature") by discriminate.
  split; [exact H1|]. split; [exact H2|].
  destruct (analyze_other_types point_doc H1 H2) as (r & Hr & Ht & Hg & _).
  exists r. split_and!; [exact Hr | exact Ht | exact Hg].
Defined.

(** X7: the fields of an analysis report tell its branch: [feature_count]
    and [geometry_types] are present exactly for a FeatureCollection, and
    [geometry_type] exactly for a Feature or one of the seven geometry
    names. *)
Theorem analyze_fields_by_type (m : list (string * json)) (r : report) :
  analyze_geojson (JObj m) = Ret r ->
  let ty := or_default (dict_get "type" m) (JStr "Unknown") in
  (is_Some (r !! "feature_count") <-> ty = JStr "FeatureCollection") /\
  (is_Some (r !! "geometry_types") <-> ty = JStr "FeatureCollection") /\
  (is_Some (r !! "geometry_type") <->
   ty = JStr "Feature" \/ in_strings ty geometry_names = true).
Proof.
  intros Hr ty.
  destruct (py_eqeq ty (JStr "FeatureCollection")) eqn:Hfc.
  - apply py_eqeq_str in Hfc as Hty. rewrite Hty.
    apply or_default_type in Hty; [|done].
    destruct (analyze_collection_ret m r Hty Hr) as (t & _ & ->).
    split_and!.
    + split; [done | intros _; by eexists].
    + split; [done | intros _; by eexists].
    + split; [by intros [? [=]] | intros [[=]|H]; by vm_compute in H].
  - destruct (py_eqeq ty (JStr "Feature")) eqn:Hf.
    + apply py_eqeq_str in Hf as Hty. rewrite Hty.
      apply or_default_type in Hty; [|done].
      destruct (analyze_feature_ret m r Hty Hr) as (_ & _ & ->).
      assert (Hlook : forall base : report,
                match dict_get "properties" m with
                | Some (JObj (p :: pm)) =>
                    <["property_keys" := VKeys (dict_keys (p :: pm))]> base
                | _ => base
                end !! "feature_count" = base !! "feature_count" /\
                match dict_get "properties" m with
                | Some (JObj (p :: pm)) =>
                    <["property_keys" := VKeys (dict_keys (p :: pm))]> base
                | _ => base
                end !! "geometry_types" = base !! "geometry_types" /\
                match dict_get "properties" m with
                | Some (JObj (p :: pm)) =>
                    <["property_keys" := VKeys (dict_keys (p :: pm))]> base
                | _ => base
                end !! "geometry_type" = base !! "geometry_type").
      { intros base.
        destruct (dict_get "properties" m) as [[| | | | | |[]]|];
          split_and!; try done; by rewrite lookup_insert_ne. }
      cbn zeta. destruct (Hlook (<["geometry_type" := VJson (geometry_type_of (JObj m))]>
                                  (<["type" := VJson (JStr "Feature")]> ∅)))
        as (-> & -> & ->).
      split_and!.
      * split; [by intros [? [=]] | done].
      * split; [by intros [? [=]] | done].
      * split; [by left | intros _; by eexists].
    + apply py_eqeq_str_false in Hfc, Hf.
      rewrite (analyze_other m Hfc Hf) in Hr. fold ty in Hr.
      destruct (in_strings ty geometry_names) eqn:Hin; injection Hr as <-.
      * split_and!.
        -- split; [by intros [? [=]] | done].
        -- split; [by intros [? [=]] | done].
        -- split; [by right | intros _; by eexists].
      * split_and!.
        -- split; [by intros [? [=]] | done].
        -- split; [by intros [? [=]] | done].
        -- split; [by intros [? [=]] | by intros [?|?]].
Qed.

Lemma analyze_fields_by_type_witness :
  analyze_geojson (JObj two_points) = Ret two_points_report /\
  (is_Some (two_points_report !! "feature_count") <->
   or_default (dict_get "type" two_points) (JStr "Unknown")
   = JStr "FeatureCollection").
Proof.
  assert (H : analyze_geojson (JObj two_points) = Ret two_points_report)
    by (vm_compute; reflexivity).
  split; [exact H|].
  exact (proj1 (analyze_fields_by_type two_points two_points_report H)).
Defined.

(** X15: a value that is not an object has no [get]: both
    [analyze_geojson] and [compare_geojson], on either side, raise
    [AttributeError] at their first field access. *)
Theorem non_object_raises (d : json) :
  is_object d = false ->
  analyze_geojson d = Raise AttributeError /\
  (forall d', compare_geojson d d' = Raise AttributeError) /\
  (forall m, compare_geojson (JObj m) d = Raise AttributeError).
Proof. by destruct d. Qed.

Lemma non_object_raises_witness :
  is_object JNull = false /\
  analyze_geojson JNull = Raise AttributeError /\
  compare_geojson JNull sample_geojson1 = Raise AttributeError /\
  compare_geojson (JObj sample_pairs1) JNull = Raise AttributeError.
Proof.
  split; [reflexivity|].
  destruct (non_object_raises JNull eq_refl) as (H1 & H2 & H3).
  split_and!; [exact H1 | exact (H2 sample_geojson1) | exact (H3 sample_pairs1)].
Defined.

Lemma field_is_object_readable (m : list (string * json)) :
  field_is TObject "properties" m = true -> readable_properties m = true.
Proof.
  unfold field_is, readable_properties.
  destruct (dict_get "properties" m) as [[]|]; try done.
  intros _. apply orb_true_r.
Qed.

(** X17: a document that [validate_geojson] accepts and that is not a
    FeatureCollection is always analyzed, and its report has a
    [geometry_type]: for a Feature the type of its geometry (["Unknown"]
    when the geometry has none), for a bare geometry its own [type]. *)
Theorem valid_then_analyzed (m : list (string * json)) (msg : message) :
  validate_geojson (JObj m) = Ret (true, msg) ->
  type_of m <> JStr "FeatureCollection" ->
  exists r,
    analyze_geojson (JObj m) = Ret r /\
    r !! "geometry_type" =
      Some (VJson (if py_eqeq (type_of m) (JStr "Feature")
                   then geometry_type_of (JObj m) else type_of m)).
Proof.
  intros Hv Hnfc. destruct (validate_verdict m) as [msg' Hm].
  rewrite Hm in Hv. injection Hv as Hv _.
  apply verdict_true in Hv as (s & Hty & Hin & Hf & _ & Hgeo).
  rewrite (type_of_get _ _ Hty) in *.
  unfold fields_typed in Hf.
  apply andb_true_iff in Hf as [Hf _]. apply andb_true_iff in Hf as [Hf Hp].
  apply andb_true_iff in Hf as [_ Hg].
  destruct (py_eqeq (JStr s) (JStr "Feature")) eqn:Hfe.
  - apply py_eqeq_str in Hfe as [= ->].
    assert (Hrg : readable_geometry m = true).
    { specialize (Hgeo eq_refl). unfold dict_mem in Hgeo.
      unfold field_is in Hg. unfold readable_geometry.
      destruct (dict_get "geometry" m) as [[]|]; done. }
    destruct (analyze_feature_ok m Hty Hrg (field_is_object_readable m Hp)) as [r Hr].
    exists r. split; [done|].
    destruct (analyze_feature_ret m r Hty Hr) as (_ & _ & ->).
    by destruct (dict_get "properties" m) as [[| | | | | |[]]|].
  - apply py_eqeq_str_false in Hfe.
    assert (Hd : or_default (dict_get "type" m) (JStr "Unknown") = JStr s)
      by (by rewrite Hty).
    pose proof (analyze_other m) as Ho. cbn zeta in Ho. rewrite Hd in Ho.
    rewrite (Ho Hnfc Hfe). eexists. split; [reflexivity|].
    assert (in_strings (JStr s) geometry_names = true) as ->.
    { apply in_strings_true. exists s. split; [done|].
      cbn in Hin |- *. intuition congruence. }
    reflexivity.
Qed.

Lemma valid_then_analyzed_witness :
  validate_geojson (JObj feature_doc) = Ret (true, Msg "Valid GeoJSON") /\
  type_of feature_doc <> JStr "FeatureCollection" /\
  exists r,
    analyze_geojson (JObj feature_doc) = Ret r /\
    r !! "geometry_type" = Some (VJson (JStr "Point")).
Proof.
  assert (H1 : validate_geojson (JObj feature_doc) = Ret (true, Msg "Valid GeoJSON"))
    by (vm_compute; reflexivity).
  assert (H2 : type_of feature_doc <> JStr "FeatureCollection") by discriminate.
  split; [exact H1|]. split; [exact H2|].
  exact (valid_then_analyzed feature_doc (Msg "Valid GeoJSON") H1 H2).
Defined.

(** ** compare_geojson *)

(** What the FeatureCollection branch needs of each side, and what it
    then returns. *)
Lemma compare_collections_inv (a b : list (string * json)) (r : report) :
  dict_get "type" a = Some (JStr "FeatureCollection") ->
  dict_get "type" b = Some (JStr "FeatureCollection") ->
  compare_geojson (JObj a) (JObj b) = Ret r ->
  exists n1 n2 items1 items2 k1 k2,
    py_len (or_default (dict_get "features" a) (JArr [])) = Ret n1 /\
    py_len (or_default (dict_get "features" b) (JArr [])) = Ret n2 /\
    py_iter (or_default (dict_get "features" a) (JArr [])) = Ret items1 /\
    py_iter (or_default (dict_get "features" b) (JArr [])) = Ret items2 /\
    for_each collect_keys items1 ∅ = Ret k1 /\
    for_each collect_keys items2 ∅ = Ret k2.
Proof.
  intros Ha Hb. unfold compare_geojson. cbn [py_get bind]. rewrite Ha, Hb.
  rewrite (proj2 (py_eqeq_str _ _) eq_refl). cbn [bind].
  fold (or_default (dict_get "features" a) (JArr []))
       (or_default (dict_get "features" b) (JArr [])).
  destruct (py_len (or_default (dict_get "features" a) _)) as [n1|] eqn:E1;
    cbn [bind]; [|discriminate].
  destruct (py_len (or_default (dict_get "features" b) _)) as [n2|] eqn:E2;
    cbn [bind]; [|discriminate].
  destruct (py_iter (or_default (dict_get "features" a) _)) as [items1|] eqn:E3;
    cbn [bind]; [|discriminate].
  destruct (for_each collect_keys items1 ∅) as [k1|] eqn:E4; cbn [bind];
    [|discriminate].
  destruct (py_iter (or_default (dict_get "features" b) _)) as [items2|] eqn:E5;
    cbn [bind]; [|discriminate].
  destruct (for_each collect_keys items2 ∅) as [k2|] eqn:E6; cbn [bind];
    [|discriminate].
  intros _. by exists n1, n2, items1, items2, k1, k2.
Qed.

Lemma compare_collections_returns (a b : list (string * json))
    (n1 n2 : Z) (items1 items2 : list json) (k1 k2 : gset string) :
  dict_get "type" a = Some (JStr "FeatureCollection") ->
  dict_get "type" b = Some (JStr "FeatureCollection") ->
  py_len (or_default (dict_get "features" a) (JArr [])) = Ret n1 ->
  py_len (or_default (dict_get "features" b) (JArr [])) = Ret n2 ->
  py_iter (or_default (dict_get "features" a) (JArr [])) = Ret items1 ->
  py_iter (or_default (dict_get "features" b) (JArr [])) = Ret items2 ->
  for_each collect_keys items1 ∅ = Ret k1 ->
  for_each collect_keys items2 ∅ = Ret k2 ->
  exists r, compare_geojson (JObj a) (JObj b) = Ret r.
Proof.
  intros Ha Hb H1 H2 H3 H4 H5 H6. unfold compare_geojson. cbn [py_get bind].
  rewrite Ha, Hb. rewrite (proj2 (py_eqeq_str _ _) eq_refl). cbn [bind].
  fold (or_default (dict_get "features" a) (JArr []))
       (or_default (dict_get "features" b) (JArr [])).
  rewrite H1. cbn [bind]. rewrite H2. cbn [bind]. rewrite H3. cbn [bind].
  rewrite H5. cbn [bind]. rewrite H4. cbn [bind]. rewrite H6. cbn [bind].
  by eexists.
Qed.

(** X11: comparing two FeatureCollections the other way round succeeds
    as well and mirrors the report: the two counts change places, the
    count difference changes sign, the type flag stays, and, as sets, the
    two lists of unique keys change places and the common keys stay. *)
Theorem compare_swapped (a b : list (string * json)) (r : report) :
  dict_get "type" a = Some (JStr "FeatureCollection") ->
  dict_get "type" b = Some (JStr "FeatureCollection") ->
  compare_geojson (JObj a) (JObj b) = Ret r ->
  exists r' d (u1 u2 c u1' u2' c' : list string),
    compare_geojson (JObj b) (JObj a) = Ret r' /\
    r' !! "different_types" = r !! "different_types" /\
    r' !! "feature_count_1" = r !! "feature_count_2" /\
    r' !! "feature_count_2" = r !! "feature_count_1" /\
    r !! "feature_count_diff" = Some (VInt d) /\
    r' !! "feature_count_diff" = Some (VInt (- d)) /\
    r !! "unique_keys_1" = Some (VKeys u1) /\
    r !! "unique_keys_2" = Some (VKeys u2) /\
    r !! "common_keys" = Some (VKeys c) /\
    r' !! "unique_keys_1" = Some (VKeys u1') /\
    r' !! "unique_keys_2" = Some (VKeys u2') /\
    r' !! "common_keys" = Some (VKeys c') /\
    (list_to_set u1' : gset string) = list_to_set u2 /\
    (list_to_set u2' : gset string) = list_to_set u1 /\
    (list_to_set c' : gset string) = list_to_set c.
Proof.
  intros Ha Hb Hr.
  destruct (compare_collections_inv a b r Ha Hb Hr)
    as (n1 & n2 & i1 & i2 & k1 & k2 & H1 & H2 & H3 & H4 & H5 & H6).
  destruct (compare_collections_returns b a n2 n1 i2 i1 k2 k1 Hb Ha H2 H1 H4 H3 H6 H5)
    as [r' Hr'].
  destruct (compare_collections_ret a b r Ha Hb Hr) as (m1 & m2 & E1 & E2 & ->).
  destruct (compare_collections_ret b a r' Hb Ha Hr') as (m2' & m1' & E2' & E1' & ->).
  assert (m1' = m1) as -> by congruence.
  assert (m2' = m2) as -> by congruence.
  eexists; exists (m1 - m2)%Z. eexists _, _, _, _, _, _. split; [exact Hr'|].
  replace (- (m1 - m2))%Z with (m2 - m1)%Z by lia.
  do 11 (split; [reflexivity|]).
  rewrite !list_to_set_elements_L. split_and!; [done | done | apply (comm_L (∩))].
Qed.

Lemma compare_swapped_witness :
  dict_get "type" sample_pairs1 = Some (JStr "FeatureCollection") /\
  dict_get "type" sample_pairs2 = Some (JStr "FeatureCollection") /\
  exists r r' (u1 u2 c u1' u2' c' : list string),
    compare_geojson (JObj sample_pairs1) (JObj sample_pairs2) = Ret r /\
    compare_geojson (JObj sample_pairs2) (JObj sample_pairs1) = Ret r' /\
    r !! "unique_keys_1" = Some (VKeys u1) /\
    r !! "unique_keys_2" = Some (VKeys u2) /\
    r !! "common_keys" = Some (VKeys c) /\
    r' !! "unique_keys_1" = Some (VKeys u1') /\
    r' !! "unique_keys_2" = Some (VKeys u2') /\
    r' !! "common_keys" = Some (VKeys c') /\
    (list_to_set u1' : gset string) = list_to_set u2 /\
    (list_to_set u2' : gset string) = list_to_set u1 /\
    (list_to_set c' : gset string) = list_to_set c.
Proof.
  assert (H1 : dict_get "type" sample_pairs1 = Some (JStr "FeatureCollection"))
    by (vm_compute; reflexivity).
  assert (H2 : dict_get "type" sample_pairs2 = Some (JStr "FeatureCollection"))
    by (vm_compute; reflexivity).
  split; [exact H1|]. split; [exact H2|].
  destruct (compare_collections_ok sample_pairs1 sample_pairs2 H1 H2)
    as [r Hr]; try (vm_compute; reflexivity).
  destruct (compare_swapped sample_pairs1 sample_pairs2 r H1 H2 Hr)
    as (r' & d & u1 & u2 & c & u1' & u2' & c' & Hr' & _ & _ & _ & _ & _
        & K1 & K2 & K3 & K4 & K5 & K6 & K7 & K8 & K9).
  exists r, r', u1, u2, c, u1', u2', c'.
  split_and!; [exact Hr | exact Hr' | exact K1 | exact K2 | exact K3 | exact K4
               | exact K5 | exact K6 | exact K7 | exact K8 | exact K9].
Defined.

(** X12: for two FeatureCollections whose [features] are absent or
    arrays, the report's counts are the lengths of the two arrays (0 when
    absent) and [feature_count_diff] is the first minus the second. *)
Theorem compare_counts (a b : list (string * json)) (r : report) :
  dict_get "type" a = Some (JStr "FeatureCollection") ->
  dict_get "type" b = Some (JStr "FeatureCollection") ->
  features_readable a = true -> features_readable b = true ->
  compare_geojson (JObj a) (JObj b) = Ret r ->
  let n1 := Z.of_nat (length (collection_features (JObj a))) in
  let n2 := Z.of_nat (length (collection_features (JObj b))) in
  r !! "feature_count_1" = Some (VInt n1) /\
  r !! "feature_count_2" = Some (VInt n2) /\
  r !! "feature_count_diff" = Some (VInt (n1 - n2)).
Proof.
  intros Ha Hb Hfa Hfb Hr n1 n2.
  destruct (compare_collections_ret a b r Ha Hb Hr) as (m1 & m2 & E1 & E2 & ->).
  assert (m1 = n1) as ->.
  { unfold n1, collection_features. unfold features_readable in Hfa.
    revert E1 Hfa. destruct (dict_get "features" a) as [[]|]; cbn; congruence. }
  assert (m2 = n2) as ->.
  { unfold n2, collection_features. unfold features_readable in Hfb.
    revert E2 Hfb. destruct (dict_get "features" b) as [[]|]; cbn; congruence. }
  by split_and!.
Qed.

Lemma compare_counts_witness :
  exists r,
    compare_geojson (JObj sample_pairs1) (JObj [("type", JStr "FeatureCollection")])
    = Ret r /\
    r !! "feature_count_1" = Some (VInt 2) /\
    r !! "feature_count_2" = Some (VInt 0) /\
    r !! "feature_count_diff" = Some (VInt 2).
Proof.
  destruct (compare_collections_ok sample_pairs1 [("type", JStr "FeatureCollection")])
    as [r Hr]; try (vm_compute; reflexivity).
  exists r. split; [exact Hr|].
  apply (compare_counts sample_pairs1 [("type", JStr "FeatureCollection")] r);
    try (vm_compute; reflexivity).
  exact Hr.
Defined.

(** X13: whatever goes wrong in [compare_geojson] is an [AttributeError]
    or a [TypeError], never a [KeyError]. *)
Theorem compare_raises_only (d1 d2 : json) (e : exn) :
  compare_geojson d1 d2 = Raise e -> e = AttributeError \/ e = TypeError.
Proof.
  destruct d1 as [| | | | | |a]; try (cbn; intros [= <-]; by left).
  destruct d2 as [| | | | | |b]; try (cbn; intros [= <-]; by left).
  unfold compare_geojson. cbn [py_get bind].
  destruct (py_eqeq _ (JStr "FeatureCollection")); cbn [bind]; [|discriminate].
  destruct (py_eqeq _ (JStr "FeatureCollection")); [|discriminate].
  set (x1 := match dict_get "features" a with Some v => v | None => JArr [] end).
  set (x2 := match dict_get "features" b with Some v => v | None => JArr [] end).
  destruct (py_len x1) as [n1|e1] eqn:Hl1; cbn [bind];
    [|intros [= <-]; right; by apply py_len_raises in Hl1].
  destruct (py_len x2) as [n2|e2] eqn:Hl2; cbn [bind];
    [|intros [= <-]; right; by apply py_len_raises in Hl2].
  destruct (py_iter x1) as [i1|e3] eqn:Hi1; cbn [bind];
    [|intros [= <-]; right; by apply py_iter_raises in Hi1].
  destruct (for_each collect_keys i1 ∅) as [k1|e4] eqn:Hk1; cbn [bind];
    [|intros [= <-]; by apply (for_each_raises _ _ collect_keys_raises _ _ _ Hk1)].
  destruct (py_iter x2) as [i2|e5] eqn:Hi2; cbn [bind];
    [|intros [= <-]; right; by apply py_iter_raises in Hi2].
  destruct (for_each collect_keys i2 ∅) as [k2|e6] eqn:Hk2; cbn [bind];
    [discriminate|].
  intros [= <-]. by apply (for_each_raises _ _ collect_keys_raises _ _ _ Hk2).
Qed.

Lemma compare_raises_only_witness :
  compare_geojson
    (JObj [("type", JStr "FeatureCollection"); ("features", JArr [JInt 5])])
    (JObj [("type", JStr "FeatureCollection")])
  = Raise TypeError /\
  (TypeError = AttributeError \/ TypeError = TypeError).
Proof.
  split; [reflexivity|].
  apply (compare_raises_only
           (JObj [("type", JStr "FeatureCollection"); ("features", JArr [JInt 5])])
           (JObj [("type", JStr "FeatureCollection")])).
  reflexivity.
Defined.

(** ** The three functions together *)

Lemma analyze_collection_inv (m : list (string * json)) (r : report) :
  dict_get "type" m = Some (JStr "FeatureCollection") ->
  analyze_geojson (JObj m) = Ret r ->
  exists n items,
    py_len (or_default (dict_get "features" m) (JArr [])) = Ret n /\
    py_iter (or_default (dict_get "features" m) (JArr [])) = Ret items /\
    forallb countable_feature items = true.
Proof.
  intros Hty. unfold analyze_geojson. cbn [py_get bind]. rewrite Hty.
  rewrite (proj2 (py_eqeq_str _ _) eq_refl).
  fold (or_default (dict_get "features" m) (JArr [])).
  set (x := or_default (dict_get "features" m) (JArr [])).
  destruct (py_len x) as [n|] eqn:Hlen; cbn [bind]; [|discriminate].
  destruct (py_iter x) as [items|] eqn:Hit; cbn [bind]; [|discriminate].
  destruct (for_each count_feature items ([], ∅)) as [[t ks]|] eqn:Hloop;
    cbn [bind]; [|discriminate].
  intros _. exists n, items. split_and!; try done.
  by apply count_all_ret in Hloop as (Hall & _).
Qed.

Lemma countable_plain (fs : list json) :
  forallb countable_feature fs = true -> forallb plain_feature fs = true.
Proof.
  induction fs as [|f fs IH]; [done|]. cbn [forallb].
  intros [Hf Hfs]%andb_true_iff. rewrite (IH Hfs), andb_true_r.
  destruct f; try discriminate. cbn in Hf |- *.
  by apply andb_true_iff in Hf as [_ Hf].
Qed.

(** X14: two FeatureCollections that [analyze_geojson] can each analyze
    can also be compared, and the two functions agree: the comparison
    counts are the two [feature_count]s, and on each side the unique keys
    together with the common keys are that side's [property_keys]. *)
Theorem analyzed_then_compared (a b : list (string * json)) (ra rb : report) :
  dict_get "type" a = Some (JStr "FeatureCollection") ->
  dict_get "type" b = Some (JStr "FeatureCollection") ->
  analyze_geojson (JObj a) = Ret ra ->
  analyze_geojson (JObj b) = Ret rb ->
  exists r n1 n2 (u1 u2 c l1 l2 : list string),
    compare_geojson (JObj a) (JObj b) = Ret r /\
    ra !! "feature_count" = Some (VInt n1) /\
    rb !! "feature_count" = Some (VInt n2) /\
    r !! "feature_count_1" = Some (VInt n1) /\
    r !! "feature_count_2" = Some (VInt n2) /\
    ra !! "property_keys" = Some (VKeys l1) /\
    rb !! "property_keys" = Some (VKeys l2) /\
    r !! "unique_keys_1" = Some (VKeys u1) /\
    r !! "unique_keys_2" = Some (VKeys u2) /\
    r !! "common_keys" = Some (VKeys c) /\
    (list_to_set u1 ∪ list_to_set c : gset string) = list_to_set l1 /\
    (list_to_set u2 ∪ list_to_set c : gset string) = list_to_set l2.
Proof.
  intros Ha Hb Hra Hrb.
  destruct (analyze_collection_inv a ra Ha Hra) as (n1 & i1 & Hl1 & Hi1 & Hc1).
  destruct (analyze_collection_inv b rb Hb Hrb) as (n2 & i2 & Hl2 & Hi2 & Hc2).
  destruct (compare_collections_returns a b n1 n2 i1 i2 _ _ Ha Hb Hl1 Hl2 Hi1 Hi2
              (collect_all_plain i1 ∅ (countable_plain i1 Hc1))
              (collect_all_plain i2 ∅ (countable_plain i2 Hc2))) as [r Hr].
  destruct (compare_collections_ret a b r Ha Hb Hr) as (m1 & m2 & E1 & E2 & ->).
  assert (m1 = n1) as -> by congruence.
  assert (m2 = n2) as -> by congruence.
  destruct (analyze_collection_ret a ra Ha Hra) as (ta & _ & ->).
  destruct (analyze_collection_ret b rb Hb Hrb) as (tb & _ & ->).
  destruct (iter_countable _ _ _ Hl1 Hi1 Hc1) as [Hit1 Hn1].
  destruct (iter_countable _ _ _ Hl2 Hi2 Hc2) as [Hit2 Hn2].
  assert (Hf1 : collection_features (JObj a) = i1).
  { rewrite Hit1. unfold collection_features, or_default.
    by destruct (dict_get "features" a) as [[]|]. }
  assert (Hf2 : collection_features (JObj b) = i2).
  { rewrite Hit2. unfold collection_features, or_default.
    by destruct (dict_get "features" b) as [[]|]. }
  rewrite Hf1, Hf2, <- Hn1, <- Hn2 in *.
  set (k1 := property_universe i1). set (k2 := property_universe i2).
  eexists _, n1, n2, _, _, _, _, _.
  split; [exact Hr|]. do 9 (split; [reflexivity|]).
  rewrite !list_to_set_elements_L. split; apply set_eq; intros k;
    rewrite elem_of_union, elem_of_difference, elem_of_intersection.
  - destruct (decide (k ∈ k2)); tauto.
  - destruct (decide (k ∈ k1)); tauto.
Qed.

Lemma analyzed_then_compared_witness :
  dict_get "type" two_points = Some (JStr "FeatureCollection") /\
  dict_get "type" two_points_swapped = Some (JStr "FeatureCollection") /\
  exists ra rb r n1 n2,
    analyze_geojson (JObj two_points) = Ret ra /\
    analyze_geojson (JObj two_points_swapped) = Ret rb /\
    compare_geojson (JObj two_points) (JObj two_points_swapped) = Ret r /\
    ra !! "feature_count" = Some (VInt n1) /\
    rb !! "feature_count" = Some (VInt n2) /\
    r !! "feature_count_1" = Some (VInt n1) /\
    r !! "feature_count_2" = Some (VInt n2).
Proof.
  split; [reflexivity|]. split; [reflexivity|].
  destruct (analyze_collection_ok two_points eq_refl eq_refl eq_refl) as [ra Hra].
  destruct (analyze_collection_ok two_points_swapped eq_refl eq_refl eq_refl)
    as [rb Hrb].
  destruct (analyzed_then_compared two_points two_points_swapped ra rb
              eq_refl eq_refl Hra Hrb)
    as (r & n1 & n2 & _ & _ & _ & _ & _ & Hr & K1 & K2 & K3 & K4 & _).
  exists ra, rb, r, n1, n2.
  split_and!; [exact Hra | exact Hrb | exact Hr | exact K1 | exact K2 | exact K3 | exact K4].
Defined.

(** ** The caller's choice of features to plot *)

(** X16: for a document that [validate_geojson] accepts, the expression
    the caller builds the plot from never raises: it is the [features]
    array of a FeatureCollection, the one-element list of a Feature, and
    the empty list otherwise.  Without validation a FeatureCollection that
    lacks [features] raises [KeyError] there. *)
Theorem plot_features_valid (m : list (string * json)) :
  (forall msg, validate_geojson (JObj m) = Ret (true, msg) ->
     plot_features (JObj m) =
     Ret (JArr (if py_eqeq (type_of m) (JStr "FeatureCollection")
                then collection_features (JObj m)
                else if py_eqeq (type_of m) (JStr "Feature") then [JObj m]
                else []))) /\
  (dict_get "type" m = Some (JStr "FeatureCollection") ->
   dict_get "features" m = None ->
   plot_features (JObj m) = Raise KeyError).
Proof.
  split.
  - intros msg Hv. pose proof (valid_features_readable m msg Hv) as Hf.
    destruct (validate_verdict m) as [msg' Hm].
    rewrite Hm in Hv. injection Hv as Hv _.
    apply verdict_true in Hv as (s & Hty & _ & _ & Hfeat & _).
    unfold plot_features. cbn [py_get bind]. fold (or_default (dict_get "type" m) JNull).
    fold (type_of m). rewrite (type_of_get _ _ Hty).
    destruct (py_eqeq (JStr s) (JStr "FeatureCollection")) eqn:Hfc.
    + apply py_eqeq_str in Hfc as [= ->]. specialize (Hfeat eq_refl).
      unfold dict_mem in Hfeat. unfold features_readable in Hf.
      cbn [py_getitem collection_features].
      by destruct (dict_get "features" m) as [[]|].
    + by destruct (py_eqeq (JStr s) (JStr "Feature")).
  - intros Hty Hnone. unfold plot_features. cbn [py_get bind]. rewrite Hty.
    rewrite (proj2 (py_eqeq_str _ _) eq_refl). cbn [py_getitem]. by rewrite Hnone.
Qed.

Lemma plot_features_valid_witness :
  validate_geojson (JObj two_points) = Ret (true, Msg "Valid GeoJSON") /\
  plot_features (JObj two_points) = Ret (JArr [point_a; point_b]).
Proof.
  assert (H : validate_geojson (JObj two_points) = Ret (true, Msg "Valid GeoJSON"))
    by (vm_compute; reflexivity).
  split; [exact H|].
  exact (proj1 (plot_features_valid two_points) (Msg "Valid GeoJSON") H).
Defined.

(** ** Order of the features, and members the schema does not name *)

Lemma occurrences_perm (hk : pykey) (fs fs' : list json) :
  Permutation fs fs' -> occurrences hk fs = occurrences hk fs'.
Proof.
  unfold occurrences. induction 1 as [|x l l' _ IH|x y l|l l' l'' _ IH1 _ IH2];
    cbn [List.filter]; try done.
  - destruct (same_key hk (geometry_type_of x)); cbn [length]; by rewrite IH.
  - by destruct (same_key hk (geometry_type_of x)), (same_key hk (geometry_type_of y)).
  - by rewrite IH1.
Qed.

(** X18: the order of the features does not matter to the tally either:
    two FeatureCollections whose [features] arrays are permutations of
    each other get the same [feature_count] and, for every key, the same
    count in [geometry_types]. *)
Theorem geometry_types_permutation
    (m m' : list (string * json)) (fs fs' : list json) (r : report) :
  dict_get "type" m = Some (JStr "FeatureCollection") ->
  dict_get "features" m = Some (JArr fs) ->
  dict_get "type" m' = Some (JStr "FeatureCollection") ->
  dict_get "features" m' = Some (JArr fs') ->
  Permutation fs fs' ->
  analyze_geojson (JObj m) = Ret r ->
  exists r' t t',
    analyze_geojson (JObj m') = Ret r' /\
    r' !! "feature_count" = r !! "feature_count" /\
    r !! "geometry_types" = Some (VTally t) /\
    r' !! "geometry_types" = Some (VTally t') /\
    forall hk, tally_find hk t' = tally_find hk t.
Proof.
  intros Hty Hfs Hty' Hfs' Hperm Hr.
  destruct (analyze_collection_ret m r Hty Hr) as (t & Hloop & ->).
  rewrite (collection_features_get _ _ Hfs) in *.
  destruct (count_all_ret _ _ _ _ _ Hloop) as (Hall & _ & _ & Hfind).
  rewrite (forallb_perm _ _ _ Hperm) in Hall.
  assert (Hf' : features_readable m' = true)
    by (unfold features_readable; by rewrite Hfs').
  rewrite <- (collection_features_get _ _ Hfs') in Hall.
  destruct (analyze_collection_ok m' Hty' Hf' Hall) as [r' Hr'].
  destruct (analyze_collection_ret m' r' Hty' Hr') as (t' & Hloop' & ->).
  rewrite (collection_features_get _ _ Hfs') in *.
  destruct (count_all_ret _ _ _ _ _ Hloop') as (_ & _ & _ & Hfind').
  eexists _, t, t'. split; [exact Hr'|]. split_and!; try reflexivity.
  - cbn. by rewrite (Permutation_length Hperm).
  - intros hk. by rewrite Hfind, Hfind', (occurrences_perm hk _ _ Hperm).
Qed.

Lemma geometry_types_permutation_witness :
  Permutation [point_a; point_b] [point_b; point_a] /\
  exists r' t t',
    analyze_geojson (JObj two_points) = Ret two_points_report /\
    analyze_geojson (JObj two_points_swapped) = Ret r' /\
    r' !! "feature_count" = two_points_report !! "feature_count" /\
    two_points_report !! "geometry_types" = Some (VTally t) /\
    r' !! "geometry_types" = Some (VTally t') /\
    forall hk, tally_find hk t' = tally_find hk t.
Proof.
  assert (Hp : Permutation [point_a; point_b] [point_b; point_a]) by apply perm_swap.
  split; [exact Hp|].
  assert (Hr : analyze_geojson (JObj two_points) = Ret two_points_report)
    by (vm_compute; reflexivity).
  destruct (geometry_types_permutation two_points two_points_swapped
              [point_a; point_b] [point_b; point_a] two_points_report
              eq_refl eq_refl eq_refl eq_refl Hp Hr)
    as (r' & t & t' & Hr' & K1 & K2 & K3 & K4).
  exists r', t, t'.
  split_and!; [exact Hr | exact Hr' | exact K1 | exact K2 | exact K3 | exact K4].
Defined.

(** X19: validation reads five members only.  Two objects that agree on
    [type], [features], [geometry], [properties] and [coordinates] get the
    same verdict, whatever else they hold. *)
Theorem validate_ignores_other_members (m m' : list (string * json)) :
  (forall k, In k ["type"; "features"; "geometry"; "properties"; "coordinates"] ->
             dict_get k m = dict_get k m') ->
  exists b msg msg',
    validate_geojson (JObj m) = Ret (b, msg) /\
    validate_geojson (JObj m') = Ret (b, msg').
Proof.
  intros H.
  destruct (validate_verdict m) as [msg Hm], (validate_verdict m') as [msg' Hm'].
  exists (verdict m), msg, msg'. split; [done|]. rewrite Hm'. do 2 f_equal.
  unfold verdict, schema_accepts, fields_typed, field_is, type_of, dict_mem.
  rewrite (H "type"), (H "features"), (H "geometry"), (H "properties"),
    (H "coordinates") by (cbn; tauto).
  reflexivity.
Qed.

Lemma validate_ignores_other_members_witness :
  exists b msg msg',
    validate_geojson (JObj point_doc) = Ret (b, msg) /\
    validate_geojson (JObj (("bbox", JArr [JInt 0; JInt 0; JInt 1; JInt 1]) :: point_doc))
    = Ret (b, msg').
Proof.
  apply (validate_ignores_other_members point_doc
           (("bbox", JArr [JInt 0; JInt 0; JInt 1; JInt 1]) :: point_doc)).
  intros k Hk. cbn in Hk.
  destruct Hk as [<-|[<-|[<-|[<-|[<-|[]]]]]]; reflexivity.
Defined.
